(** * EM Spark UI augmentation script ([public/custom.js])

    The script customises a chat page it does not own.  The file holds two
    revisions of the same immediately-invoked function, one after the other;
    they are embedded here as the modules [V1] (lines 4-278) and [V2]
    (lines 283-481) over one model of the browser: a store of element
    objects, the document tree, the timer table, the listener tables and a
    trace of what leaves the script. *)

From stdpp Require Import base option list strings gmap functions.
From Stdlib Require Import Lia.

Open Scope string_scope.
Open Scope list_scope.
Open Scope nat_scope.

(** ** The browser model *)

Abbreviation NodeId := nat.

(** What a script can throw in this model: a property read or method call on
    [null]/[undefined], and the DOM's refusal of an impossible insertion. *)
Inductive Fault := TypeError | HierarchyRequestError.

(** What leaves the script, in order; the host's reaction (its own
    listeners) is not part of the script.  [Focus], [Blur] and [Select]
    record the call of the method; whether the focus moved is read off
    [activeElement].  [Click] records a click event dispatched at the target
    by [click()]: the platform dispatches none at a disabled form control. *)
Inductive Effect :=
| ConsoleLog (msg : string)
| DispatchEvent (target : NodeId) (type : string) (bubbles : bool)
| Focus (target : NodeId)
| Blur (target : NodeId)
| Select (target : NodeId)
| Click (target : NodeId)
| PreventDefault
| Uncaught (f : Fault).

Record KeyEvent := { metaKey : bool; ctrlKey : bool; key : string }.

(** The four selector shapes the script uses; a selector list matches when one
    of its members does. *)
Inductive Selector :=
| ByTag (t : string)
| ByClass (c : string)
| ByData (name val : string)
| ByTagType (t ty : string).

Inductive Position := BeforeBegin | AfterBegin.

Section Browser.
(** The closures a revision hands to the browser (timer callbacks, listeners,
    observer callbacks), defunctionalised: one constructor per function
    expression, its arguments the variables it captures. *)
Context {Closure : Type}.

(** An element object.  [disabled] is the form-control property the script
    reads at line 241.  [hidden] says that the element is not being rendered
    or is inert (a style or a modal dialog of the host): like a disabled
    form control, such an element is given no focus. *)
Record Element := {
  tagName : string;
  elemId : string;
  classList : list string;
  typeAttr : option string;
  dataset : gmap string string;
  disabled : bool;
  hidden : bool;
  value : string;
  placeholder : string;
  innerText : string;
  onclick : option Closure;
  clickListeners : list Closure
}.

Record Timer := { delay : nat; repeating : bool; callback : Closure }.

Record Observer := {
  target : NodeId;
  childList : bool;
  subtree : bool;
  attributes : bool;
  characterData : bool;
  onMutations : Closure
}.

(** [doc] is the document's element tree in tree order, each element with its
    depth (the root element has depth 0).  [heap] holds every element object,
    attached or not; identifiers from [next] on are unused. *)
Record State := {
  heap : NodeId → Element;
  next : NodeId;
  doc : list (nat * NodeId);
  activeElement : option NodeId;
  loading : bool;
  timers : list Timer;
  keydownListeners : list Closure;
  readyListeners : list Closure;
  observers : list Observer;
  trace : list Effect
}.

Definition blank (tag : string) : Element :=
  {| tagName := tag; elemId := ""; classList := []; typeAttr := None;
     dataset := ∅; disabled := false; hidden := false; value := "";
     placeholder := ""; innerText := ""; onclick := None;
     clickListeners := [] |}.

Definition set_elemId (i : string) (e : Element) : Element :=
  {| tagName := tagName e; elemId := i; classList := classList e;
     typeAttr := typeAttr e; dataset := dataset e; disabled := disabled e;
     hidden := hidden e; value := value e; placeholder := placeholder e;
     innerText := innerText e; onclick := onclick e;
     clickListeners := clickListeners e |}.

Definition set_classList (c : list string) (e : Element) : Element :=
  {| tagName := tagName e; elemId := elemId e; classList := c;
     typeAttr := typeAttr e; dataset := dataset e; disabled := disabled e;
     hidden := hidden e; value := value e; placeholder := placeholder e;
     innerText := innerText e; onclick := onclick e;
     clickListeners := clickListeners e |}.

Definition set_value (v : string) (e : Element) : Element :=
  {| tagName := tagName e; elemId := elemId e; classList := classList e;
     typeAttr := typeAttr e; dataset := dataset e; disabled := disabled e;
     hidden := hidden e; value := v; placeholder := placeholder e;
     innerText := innerText e; onclick := onclick e;
     clickListeners := clickListeners e |}.

Definition set_placeholder (p : string) (e : Element) : Element :=
  {| tagName := tagName e; elemId := elemId e; classList := classList e;
     typeAttr := typeAttr e; dataset := dataset e; disabled := disabled e;
     hidden := hidden e; value := value e; placeholder := p;
     innerText := innerText e; onclick := onclick e;
     clickListeners := clickListeners e |}.

Definition set_data (k v : string) (e : Element) : Element :=
  {| tagName := tagName e; elemId := elemId e; classList := classList e;
     typeAttr := typeAttr e; dataset := <[k := v]> (dataset e);
     disabled := disabled e; hidden := hidden e; value := value e;
     placeholder := placeholder e; innerText := innerText e;
     onclick := onclick e; clickListeners := clickListeners e |}.

Definition set_innerText (t : string) (e : Element) : Element :=
  {| tagName := tagName e; elemId := elemId e; classList := classList e;
     typeAttr := typeAttr e; dataset := dataset e; disabled := disabled e;
     hidden := hidden e; value := value e; placeholder := placeholder e;
     innerText := t; onclick := onclick e;
     clickListeners := clickListeners e |}.

Definition set_onclick (c : Closure) (e : Element) : Element :=
  {| tagName := tagName e; elemId := elemId e; classList := classList e;
     typeAttr := typeAttr e; dataset := dataset e; disabled := disabled e;
     hidden := hidden e; value := value e; placeholder := placeholder e;
     innerText := innerText e; onclick := Some c;
     clickListeners := clickListeners e |}.

Definition add_clickListener (c : Closure) (e : Element) : Element :=
  {| tagName := tagName e; elemId := elemId e; classList := classList e;
     typeAttr := typeAttr e; dataset := dataset e; disabled := disabled e;
     hidden := hidden e; value := value e; placeholder := placeholder e;
     innerText := innerText e; onclick := onclick e;
     clickListeners := clickListeners e ++ [c] |}.

Definition with_heap (h : NodeId → Element) (s : State) : State :=
  {| heap := h; next := next s; doc := doc s;
     activeElement := activeElement s; loading := loading s;
     timers := timers s; keydownListeners := keydownListeners s;
     readyListeners := readyListeners s; observers := observers s;
     trace := trace s |}.

Definition with_next (n : NodeId) (s : State) : State :=
  {| heap := heap s; next := n; doc := doc s;
     activeElement := activeElement s; loading := loading s;
     timers := timers s; keydownListeners := keydownListeners s;
     readyListeners := readyListeners s; observers := observers s;
     trace := trace s |}.

Definition with_doc (d : list (nat * NodeId)) (s : State) : State :=
  {| heap := heap s; next := next s; doc := d;
     activeElement := activeElement s; loading := loading s;
     timers := timers s; keydownListeners := keydownListeners s;
     readyListeners := readyListeners s; observers := observers s;
     trace := trace s |}.

Definition with_activeElement (a : option NodeId) (s : State) : State :=
  {| heap := heap s; next := next s; doc := doc s;
     activeElement := a; loading := loading s;
     timers := timers s; keydownListeners := keydownListeners s;
     readyListeners := readyListeners s; observers := observers s;
     trace := trace s |}.

Definition with_loading (b : bool) (s : State) : State :=
  {| heap := heap s; next := next s; doc := doc s;
     activeElement := activeElement s; loading := b;
     timers := timers s; keydownListeners := keydownListeners s;
     readyListeners := readyListeners s; observers := observers s;
     trace := trace s |}.

Definition with_timers (t : list Timer) (s : State) : State :=
  {| heap := heap s; next := next s; doc := doc s;
     activeElement := activeElement s; loading := loading s;
     timers := t; keydownListeners := keydownListeners s;
     readyListeners := readyListeners s; observers := observers s;
     trace := trace s |}.

Definition with_keydownListeners (l : list Closure) (s : State) : State :=
  {| heap := heap s; next := next s; doc := doc s;
     activeElement := activeElement s; loading := loading s;
     timers := timers s; keydownListeners := l;
     readyListeners := readyListeners s; observers := observers s;
     trace := trace s |}.

Definition with_readyListeners (l : list Closure) (s : State) : State :=
  {| heap := heap s; next := next s; doc := doc s;
     activeElement := activeElement s; loading := loading s;
     timers := timers s; keydownListeners := keydownListeners s;
     readyListeners := l; observers := observers s;
     trace := trace s |}.

Definition with_observers (o : list Observer) (s : State) : State :=
  {| heap := heap s; next := next s; doc := doc s;
     activeElement := activeElement s; loading := loading s;
     timers := timers s; keydownListeners := keydownListeners s;
     readyListeners := readyListeners s; observers := o;
     trace := trace s |}.

Definition with_trace (t : list Effect) (s : State) : State :=
  {| heap := heap s; next := next s; doc := doc s;
     activeElement := activeElement s; loading := loading s;
     timers := timers s; keydownListeners := keydownListeners s;
     readyListeners := readyListeners s; observers := observers s;
     trace := t |}.

(** *** The script monad: state, and an exception that keeps the state *)

Inductive Result (A : Type) :=
| Ok (a : A) (s : State)
| Throw (f : Fault) (s : State).
Arguments Ok {A} a s.
Arguments Throw {A} f s.

Definition M (A : Type) : Type := State → Result A.

Definition ret {A} (a : A) : M A := λ s, Ok a s.

Definition bind {A B} (m : M A) (k : A → M B) : M B :=
  λ s, match m s with
       | Ok a s' => k a s'
       | Throw f s' => Throw f s'
       end.

Definition throw {A} (f : Fault) : M A := λ s, Throw f s.
Definition gets {A} (f : State → A) : M A := λ s, Ok (f s) s.
Definition modify (f : State → State) : M unit := λ s, Ok tt (f s).

(** The state a task leaves behind; an exception that reaches the top of a
    task is reported and the page goes on. *)
Definition settle (r : Result unit) : State :=
  match r with
  | Ok _ s => s
  | Throw f s => with_trace (trace s ++ [Uncaught f]) s
  end.

Local Notation "'let*' x := m 'in' k" := (bind m (λ x, k))
  (at level 10, x name, m at level 100, k at level 200).
Local Notation "m >> k" := (bind m (λ _, k))
  (at level 100, k at level 200, right associativity).

(** *** Values as JavaScript tests them *)

(** An element reference in a condition: [null] is false. *)
Definition nonNull (r : option NodeId) : bool :=
  match r with Some _ => true | None => false end.

(** A string-or-undefined in a condition: [undefined] and the empty string
    are false. *)
Definition truthy (v : option string) : bool :=
  match v with
  | Some w => negb (String.eqb w "")
  | None => false
  end.

(** A string-or-undefined stored into a DOMString property. *)
Definition toDOMString (v : option string) : string :=
  match v with Some w => w | None => "undefined" end.

Definition when (b : bool) (m : M unit) : M unit :=
  if b then m else ret tt.

(** [a && b] where evaluating [b] reads through a reference. *)
Definition andThen (a : bool) (b : M bool) : M bool :=
  if a then b else ret false.

Fixpoint forEach {A} (l : list A) (f : A → M unit) : M unit :=
  match l with
  | [] => ret tt
  | x :: l' => f x >> forEach l' f
  end.

(** [n] invocations of [m], one after the other. *)
Fixpoint times (n : nat) (m : M unit) : M unit :=
  match n with
  | O => ret tt
  | S k => m >> times k m
  end.

(** *** Resolving elements *)

Definition matches (e : Element) (σ : Selector) : bool :=
  match σ with
  | ByTag t => String.eqb (tagName e) t
  | ByClass c => existsb (String.eqb c) (classList e)
  | ByData k v =>
      match dataset e !! k with
      | Some w => String.eqb w v
      | None => false
      end
  | ByTagType t ty =>
      String.eqb (tagName e) t &&
      match typeAttr e with
      | Some w => String.eqb w ty
      | None => false
      end
  end.

Definition matchesAny (σs : list Selector) (e : Element) : bool :=
  existsb (matches e) σs.

Definition hasId (i : string) (e : Element) : bool :=
  String.eqb (elemId e) i.

(** First element of the tree [d], in tree order, whose object in [h]
    satisfies [p]; [None] is JavaScript's [null]. *)
Definition firstMatch (p : Element → bool) (h : NodeId → Element)
    (d : list (nat * NodeId)) : option NodeId :=
  snd <$> List.find (λ dn, p (h dn.2)) d.

Definition findFirst (p : Element → bool) (s : State) : option NodeId :=
  firstMatch p (heap s) (doc s).

Definition querySelector (σs : list Selector) : M (option NodeId) :=
  gets (findFirst (matchesAny σs)).

Definition getElementById (i : string) : M (option NodeId) :=
  gets (findFirst (hasId i)).

(** [root.querySelectorAll]: the matching descendants of the root of the
    flattened subtree [sub], in tree order. *)
Definition querySelectorAllIn (sub : list (nat * NodeId))
    (σs : list Selector) : M (list NodeId) :=
  gets (λ s, snd <$> List.filter (λ dn, matchesAny σs (heap s dn.2)) (tail sub)).


Definition documentElement : M (option NodeId) :=
  gets (λ s, snd <$> head (doc s)).

(** First child of the root element whose object satisfies [p]. *)
Definition firstChild (p : Element → bool) (h : NodeId → Element)
    (d : list (nat * NodeId)) : option NodeId :=
  snd <$> List.find (λ dn, Nat.eqb dn.1 1 && p (h dn.2)) d.

Definition isHead (e : Element) : bool := String.eqb (tagName e) "head".
Definition isBody (e : Element) : bool :=
  String.eqb (tagName e) "body" || String.eqb (tagName e) "frameset".

Definition documentHead : M (option NodeId) :=
  gets (λ s, firstChild isHead (heap s) (doc s)).

Definition documentBody : M (option NodeId) :=
  gets (λ s, firstChild isBody (heap s) (doc s)).

(** *** Reading and writing through a reference *)

Definition deref (r : option NodeId) : M NodeId :=
  match r with
  | Some n => ret n
  | None => throw TypeError
  end.

Definition getProp {A} (r : option NodeId) (f : Element → A) : M A :=
  let* n := deref r in gets (λ s, f (heap s n)).

Definition setProp (r : option NodeId) (f : Element → Element) : M unit :=
  let* n := deref r in
  modify (λ s, with_heap (<[n := f (heap s n)]> (heap s)) s).

Definition emit (e : Effect) : M unit :=
  modify (λ s, with_trace (trace s ++ [e]) s).

Definition attachedIn (n : NodeId) (d : list (nat * NodeId)) : bool :=
  existsb (λ dn, Nat.eqb dn.2 n) d.

Definition isAttached (n : NodeId) (s : State) : bool :=
  attachedIn n (doc s).

(** Whether the platform lets the element take the focus, once it is in the
    document.  The script calls [focus()] on [textarea] elements only. *)
Definition focusable (e : Element) : bool :=
  negb (disabled e) && negb (hidden e).

(** [n.focus()]: the focus moves to [n] if [n] is in the document and can
    take it, and stays where it is otherwise. *)
Definition giveFocus (n : NodeId) (s : State) : State :=
  if isAttached n s && focusable (heap s n)
  then with_activeElement (Some n) s else s.

Definition focus (r : option NodeId) : M unit :=
  let* n := deref r in
  emit (Focus n) >>
  modify (giveFocus n).

Definition blur (r : option NodeId) : M unit :=
  let* n := deref r in
  emit (Blur n) >>
  modify (λ s, if decide (activeElement s = Some n)
               then with_activeElement None s else s).

Definition select (r : option NodeId) : M unit :=
  let* n := deref r in emit (Select n).

(** [n.click()] returns at once on a disabled form control and dispatches a
    click event at [n] otherwise, attached or not. *)
Definition click (r : option NodeId) : M unit :=
  let* n := deref r in
  let* d := gets (λ s, disabled (heap s n)) in
  when (negb d) (emit (Click n)).

Definition dispatchEvent (r : option NodeId) (type : string)
    (bubbles : bool) : M unit :=
  let* n := deref r in emit (DispatchEvent n type bubbles).

Definition consoleLog (msg : string) : M unit := emit (ConsoleLog msg).

(** *** Creating and inserting elements *)

Definition alloc (e : Element) : M NodeId :=
  let* n := gets next in
  modify (λ s, with_next (S n) (with_heap (<[n := e]> (heap s)) s)) >>
  ret n.

Definition createElement (tag : string) : M NodeId := alloc (blank tag).

(** The elements a markup string parses to, as a flattened tree of fresh
    objects (depths are kept as given). *)
Fixpoint parseInto (markup : list (nat * Element)) : M (list (nat * NodeId)) :=
  match markup with
  | [] => ret []
  | (d, e) :: rest =>
      let* n := alloc e in
      let* ns := parseInto rest in
      ret ((d, n) :: ns)
  end.

Definition shift (k : nat) (sub : list (nat * NodeId)) : list (nat * NodeId) :=
  (λ dn, (k + dn.1, dn.2)) <$> sub.

(** Splits the document at the element [n]: what precedes it, its depth,
    what follows it. *)
Fixpoint splitAt (n : NodeId) (l : list (nat * NodeId))
    : option (list (nat * NodeId) * nat * list (nat * NodeId)) :=
  match l with
  | [] => None
  | (d, m) :: l' =>
      if Nat.eqb m n then Some ([], d, l')
      else match splitAt n l' with
           | Some (pre, dn, post) => Some ((d, m) :: pre, dn, post)
           | None => None
           end
  end.

(** The elements following an element of depth [d] that lie inside it. *)
Fixpoint inside (d : nat) (l : list (nat * NodeId))
    : list (nat * NodeId) * list (nat * NodeId) :=
  match l with
  | [] => ([], [])
  | (d', m) :: l' =>
      if Nat.ltb d d'
      then let '(i, o) := inside d l' in ((d', m) :: i, o)
      else ([], l)
  end.

(** [anchor.insertAdjacentElement(pos, root)], with [sub] the flattened
    detached subtree of [root] (root at depth 0).  The subtrees inserted by
    the script are reachable from the inserting function alone, so they are
    detached when it runs.  Before the root element there is no room: the
    document takes one element child. *)
Definition insertAdjacentElement (r : option NodeId) (pos : Position)
    (sub : list (nat * NodeId)) : M unit :=
  let* n := deref r in
  let* tree := gets doc in
  match splitAt n tree with
  | None => ret tt
  | Some (pre, d, post) =>
      match pos with
      | AfterBegin =>
          modify (with_doc (pre ++ (d, n) :: shift (S d) sub ++ post))
      | BeforeBegin =>
          match d with
          | O => throw HierarchyRequestError
          | S _ => modify (with_doc (pre ++ shift d sub ++ (d, n) :: post))
          end
      end
  end.

(** [parent.appendChild(root)]: after the last element inside [parent]. *)
Definition appendChild (r : option NodeId) (sub : list (nat * NodeId))
    : M unit :=
  let* n := deref r in
  let* tree := gets doc in
  match splitAt n tree with
  | None => ret tt
  | Some (pre, d, post) =>
      modify (with_doc (pre ++ (d, n) :: (inside d post).1
                            ++ shift (S d) sub ++ (inside d post).2))
  end.

(** *** Registering callbacks *)

Definition setTimeout (c : Closure) (ms : nat) : M unit :=
  modify (λ s, with_timers
    (timers s ++ [{| delay := ms; repeating := false; callback := c |}]) s).

Definition setInterval (c : Closure) (ms : nat) : M unit :=
  modify (λ s, with_timers
    (timers s ++ [{| delay := ms; repeating := true; callback := c |}]) s).

Definition addKeydownListener (c : Closure) : M unit :=
  modify (λ s, with_keydownListeners (keydownListeners s ++ [c]) s).

Definition addReadyListener (c : Closure) : M unit :=
  modify (λ s, with_readyListeners (readyListeners s ++ [c]) s).

(** [new MutationObserver(c).observe(target, options)]; a [null] target is
    a [TypeError]. *)
Definition observe (c : Closure) (r : option NodeId)
    (cl st at_ cd : bool) : M unit :=
  let* n := deref r in
  modify (λ s, with_observers
    (observers s ++ [{| target := n; childList := cl; subtree := st;
                        attributes := at_; characterData := cd;
                        onMutations := c |}]) s).

(** *** Observations of a state *)

Definition countIn (p : Element → bool) (h : NodeId → Element)
    (d : list (nat * NodeId)) : nat :=
  length (List.filter (λ dn, p (h dn.2)) d).

Definition countWithId (i : string) (s : State) : nat :=
  countIn (hasId i) (heap s) (doc s).

Definition intervalCount (s : State) : nat :=
  length (List.filter repeating (timers s)).

Definition clicksOn (n : NodeId) (t : list Effect) : nat :=
  length (List.filter (λ e, match e with
                            | Click m => Nat.eqb m n
                            | _ => false
                            end) t).

Definition clickCount (t : list Effect) : nat :=
  length (List.filter (λ e, match e with Click _ => true | _ => false end) t).

(** The attached elements as they stand: position, identity and object. *)
Definition rendered (s : State) : list (nat * NodeId * Element) :=
  (λ dn, (dn, heap s dn.2)) <$> doc s.

(** Every attached element was allocated. *)
Definition wf (s : State) : Prop :=
  Forall (λ dn, dn.2 < next s) (doc s).

(** *** The event loop *)

Section Loop.
(** How a revision runs its closures; the keydown listener is the only one
    that reads its argument. *)
Variable run : Closure → option KeyEvent → M unit.

Definition runAll (cs : list Closure) (arg : option KeyEvent) (s : State)
    : State :=
  foldl (λ s' c, settle (run c arg s')) s cs.

(** Timer [i] comes due: a timeout leaves the table, an interval stays. *)
Definition fireTimer (i : nat) (s : State) : State :=
  match timers s !! i with
  | None => s
  | Some t =>
      settle (run (callback t) None
                (if repeating t then s
                 else with_timers (delete i (timers s)) s))
  end.

(** One batch of mutation records reaches observer [k]. *)
Definition deliverMutations (k : nat) (s : State) : State :=
  match observers s !! k with
  | None => s
  | Some o => settle (run (onMutations o) None s)
  end.

Definition keydown (e : KeyEvent) (s : State) : State :=
  runAll (keydownListeners s) (Some e) s.

(** The user activates element [n]: its [onclick] handler and its click
    listeners run (no element of the script carries both). *)
Definition activate (n : NodeId) (s : State) : State :=
  runAll (option_list (onclick (heap s n)) ++ clickListeners (heap s n))
         None s.

(** The document finishes loading. *)
Definition domContentLoaded (s : State) : State :=
  runAll (readyListeners s) None (with_loading false s).

(** The host re-renders: the document and its objects change under the
    script, its timers and listeners stay. *)
Definition hostRender (h : NodeId → Element) (n : NodeId)
    (d : list (nat * NodeId)) (a : option NodeId) (s : State) : State :=
  with_heap h (with_next n (with_doc d (with_activeElement a s))).

(** The host takes element [n] and everything inside it out of the
    document. *)
Definition removeElement (n : NodeId) (s : State) : State :=
  match splitAt n (doc s) with
  | None => s
  | Some (pre, d, post) => with_doc (pre ++ (inside d post).2) s
  end.

Inductive Event :=
| TimerDue (i : nat)
| MutationBatch (k : nat)
| KeyDown (e : KeyEvent)
| Activation (n : NodeId)
| ContentLoaded
| HostRender (h : NodeId → Element) (n : NodeId)
    (d : list (nat * NodeId)) (a : option NodeId).

Definition step (s : State) (ev : Event) : State :=
  match ev with
  | TimerDue i => fireTimer i s
  | MutationBatch k => deliverMutations k s
  | KeyDown e => keydown e s
  | Activation n => activate n s
  | ContentLoaded => domContentLoaded s
  | HostRender h n d a => hostRender h n d a s
  end.
End Loop.

End Browser.

Arguments Element : clear implicits.
Arguments Timer : clear implicits.
Arguments Observer : clear implicits.
Arguments State : clear implicits.
Arguments Result : clear implicits.
Arguments M : clear implicits.
Arguments Event : clear implicits.
Arguments Ok {Closure A} a s.
Arguments Throw {Closure A} f s.

Notation "'let*' x := m 'in' k" := (bind m (λ x, k))
  (at level 10, x name, m at level 100, k at level 200).
Notation "m >> k" := (bind m (λ _, k))
  (at level 100, k at level 200, right associativity).

(** ** First revision (lines 4-278)

    Text of style sheets and inline styles is presentation only and is left
    out of element objects. *)
Module V1.

Inductive Closure :=
| SetPlaceholder                          (* [setPlaceholder], line 35 *)
| FocusTask                               (* the arrow at line 52 *)
| AddQuickActions                         (* [addQuickActions], as passed at line 258 *)
| QuickActionClick (btn : NodeId)         (* the arrow at line 157 *)
| SendClick (sendButton : option NodeId)  (* the arrow at line 240 *)
| KeydownHandler                          (* the arrow at line 170 *)
| MutationCallback                        (* the arrow at line 253 *)
| OnReady.                                (* [onReady], line 8 *)

Definition placeholderText : string :=
  "Ask about energy markets... e.g., 'DAM yesterday' or 'GDAM 20-50 slots Oct 2024'".

Definition textareaSel : list Selector := [ByTag "textarea"].
Definition sendButtonSel : list Selector :=
  [ByData "testid" "send-button"; ByTagType "button" "submit"].
Definition messagesSel : list Selector :=
  [ByData "testid" "messages-container"; ByClass "cl__messages"; ByTag "main"].

(** *** 1. Enhanced placeholder *)

Definition setPlaceholder : M Closure unit :=
  let* textarea := querySelector textareaSel in
  let* go := andThen (nonNull textarea)
               (let* mark := getProp textarea (λ e, dataset e !! "placeholderSet") in
                ret (negb (truthy mark))) in
  when go (
    setProp textarea (set_placeholder placeholderText) >>
    setProp textarea (set_data "placeholderSet" "true")).

Definition updatePlaceholder : M Closure unit :=
  setPlaceholder >>
  setInterval SetPlaceholder 1000.

(** *** 2. Auto-focus input *)

Definition focusTask : M Closure unit :=
  let* textarea := querySelector textareaSel in
  when (nonNull textarea) (focus textarea).

Definition focusInput : M Closure unit :=
  setTimeout FocusTask 500.

(** *** Helper: send message *)

Definition sendClick (sendButton : option NodeId) : M Closure unit :=
  let* go := andThen (nonNull sendButton)
               (let* d := getProp sendButton disabled in ret (negb d)) in
  when go (click sendButton).

Definition sendMessage (text : string) : M Closure unit :=
  let* textarea := querySelector textareaSel in
  let* sendButton := querySelector sendButtonSel in
  when (nonNull textarea) (
    setProp textarea (set_value text) >>
    dispatchEvent textarea "input" true >>
    focus textarea >>
    setTimeout (SendClick sendButton) 100).

(** *** 3. Quick action buttons *)

Definition quickActionBtn (q : string) : Element Closure :=
  set_data "query" q (set_classList ["quick-action-btn"] (blank "button")).

Definition span (c t : string) : Element Closure :=
  set_innerText t (set_classList [c] (blank "span")).

(** What the template literal of lines 71-148 parses to, below the
    container, with the depth of each element. *)
Definition panelMarkup : list (nat * Element Closure) :=
  [(1, blank "style");
   (1, set_innerText "Quick Examples"
         (set_elemId "quick-actions-title" (blank "div")));
   (1, set_classList ["quick-actions-grid"] (blank "div"));
   (2, quickActionBtn "DAM yesterday");
   (3, span "emoji" "📊");
   (3, span "text" "DAM Yesterday");
   (2, quickActionBtn "GDAM today");
   (3, span "emoji" "🟢");
   (3, span "text" "GDAM Today");
   (2, quickActionBtn "Compare Nov 2022, 2023, 2024");
   (3, span "emoji" "📈");
   (3, span "text" "Compare Years");
   (2, quickActionBtn "Show detailed list for last week");
   (3, span "emoji" "📋");
   (3, span "text" "Detailed List")].

(** The catalog the markup spells out: label and query of the four buttons,
    in markup order. *)
Definition catalog : list (string * string) :=
  [("DAM Yesterday", "DAM yesterday");
   ("GDAM Today", "GDAM today");
   ("Compare Years", "Compare Nov 2022, 2023, 2024");
   ("Detailed List", "Show detailed list for last week")].

Definition quickActionClick (btn : NodeId) : M Closure unit :=
  let* query := getProp (Some btn) (λ e, dataset e !! "query") in
  sendMessage (toDOMString query).

Definition addQuickActions : M Closure unit :=
  let* existing := getElementById "quick-actions" in
  if nonNull existing then ret tt else
  let* container := createElement "div" in
  setProp (Some container) (set_elemId "quick-actions") >>
  let* children := parseInto panelMarkup in
  let panel := (0, container) :: children in
  let* messagesContainer := querySelector messagesSel in
  when (nonNull messagesContainer) (
    insertAdjacentElement messagesContainer AfterBegin panel >>
    let* btns := querySelectorAllIn panel [ByClass "quick-action-btn"] in
    forEach btns (λ btn,
      setProp (Some btn) (add_clickListener (QuickActionClick btn)))).

(** *** 4. Keyboard shortcuts *)

Definition keydownHandler (arg : option KeyEvent) : M Closure unit :=
  let* e := match arg with Some e => ret e | None => throw TypeError end in
  when ((metaKey e || ctrlKey e) && String.eqb (key e) "k") (
    emit PreventDefault >>
    let* textarea := querySelector textareaSel in
    when (nonNull textarea) (focus textarea >> select textarea)) >>
  when (String.eqb (key e) "Escape") (
    let* textarea := querySelector textareaSel in
    let* act := gets activeElement in
    when (nonNull textarea && bool_decide (act = textarea)) (
      setProp textarea (set_value "") >>
      blur textarea)).

Definition setupKeyboardShortcuts : M Closure unit :=
  addKeydownListener KeydownHandler.

(** *** 5. Welcome animation *)

Definition addWelcomeAnimation : M Closure unit :=
  let* style := createElement "style" in
  let* head := documentHead in
  appendChild head [(0, style)].

(** *** Observer: watch for dynamic changes *)

Definition mutationCallback : M Closure unit :=
  updatePlaceholder >>
  let* panel := getElementById "quick-actions" in
  when (negb (nonNull panel)) (setTimeout AddQuickActions 500).

Definition observeChanges : M Closure unit :=
  let* body := documentBody in
  observe MutationCallback body true true false false.

(** *** Initialize *)

Definition onReady : M Closure unit :=
  consoleLog "EM Spark UI initialized" >>
  updatePlaceholder >>
  focusInput >>
  addQuickActions >>
  setupKeyboardShortcuts >>
  addWelcomeAnimation >>
  observeChanges.

Definition main : M Closure unit :=
  let* l := gets loading in
  if l then addReadyListener OnReady else onReady.

Definition run (c : Closure) (arg : option KeyEvent) : M Closure unit :=
  match c with
  | SetPlaceholder => setPlaceholder
  | FocusTask => focusTask
  | AddQuickActions => addQuickActions
  | QuickActionClick btn => quickActionClick btn
  | SendClick sendButton => sendClick sendButton
  | KeydownHandler => keydownHandler arg
  | MutationCallback => mutationCallback
  | OnReady => onReady
  end.

End V1.

(** ** Second revision (lines 283-481) *)
Module V2.

Inductive Closure :=
| SetPlaceholder                              (* [setPlaceholder], line 313 *)
| FocusTask                                   (* the arrow at line 328 *)
| FillInput (query : string)                  (* [btn.onclick], line 383 *)
| InsertPanel (container : list (nat * NodeId)) (* the arrow at line 395 *)
| KeydownHandler                              (* the arrow at line 407 *)
| MutationCallback                            (* the arrow at line 452 *)
| OnReady.                                    (* [onReady], line 287 *)

Definition placeholderText : string :=
  "Ask about energy markets... e.g., 'DAM yesterday' or 'GDAM 20-50 slots'".

Definition textareaSel : list Selector := [ByTag "textarea"].
Definition sendButtonSel : list Selector := [ByData "testid" "send-button"].
Definition composerSel : list Selector :=
  [ByClass "cl__composer"; ByData "testid" "input-box"].

(** *** 1. Enhanced placeholder *)

Definition setPlaceholder : M Closure unit :=
  let* textarea := querySelector textareaSel in
  let* go := andThen (nonNull textarea)
               (let* mark := getProp textarea (λ e, dataset e !! "placeholderSet") in
                ret (negb (truthy mark))) in
  when go (
    setProp textarea (set_placeholder placeholderText) >>
    setProp textarea (set_data "placeholderSet" "true")).

Definition updatePlaceholder : M Closure unit :=
  setPlaceholder >>
  setInterval SetPlaceholder 1000.

(** *** 2. Auto-focus input *)

Definition focusTask : M Closure unit :=
  let* textarea := querySelector textareaSel in
  when (nonNull textarea) (focus textarea).

Definition focusInput : M Closure unit :=
  setTimeout FocusTask 500.

(** *** 3. Quick action buttons *)

Record Example := { emoji : string; text : string; query : string }.

Definition examples : list Example :=
  [{| emoji := "📊"; text := "DAM rate today"; query := "DAM rate for today" |};
   {| emoji := "🟢"; text := "GDAM yesterday"; query := "GDAM rate for yesterday" |};
   {| emoji := "🔵"; text := "RTM last hour"; query := "RTM rate for last hour" |};
   {| emoji := "📈"; text := "Compare markets"; query := "Compare DAM and GDAM for today" |}].

Definition fillInput (q : string) : M Closure unit :=
  let* textarea := querySelector textareaSel in
  when (nonNull textarea) (
    setProp textarea (set_value q) >>
    focus textarea >>
    dispatchEvent textarea "input" true).

Definition insertPanel (container : list (nat * NodeId)) : M Closure unit :=
  let* inputArea := querySelector composerSel in
  when (nonNull inputArea) (
    insertAdjacentElement inputArea BeforeBegin container).

(** The loop of lines 359-393; it returns the buttons appended to the
    container, which stand for the container's children.  The mouseover and
    mouseout handlers only restyle the button. *)
Fixpoint makeButtons (exs : list Example) : M Closure (list (nat * NodeId)) :=
  match exs with
  | [] => ret []
  | ex :: rest =>
      let* btn := createElement "button" in
      setProp (Some btn) (set_innerText (emoji ex ++ " " ++ text ex)) >>
      setProp (Some btn) (set_onclick (FillInput (query ex))) >>
      let* more := makeButtons rest in
      ret ((1, btn) :: more)
  end.

Definition addQuickActions : M Closure unit :=
  let* existing := getElementById "quick-actions" in
  if nonNull existing then ret tt else
  let* container := createElement "div" in
  setProp (Some container) (set_elemId "quick-actions") >>
  let* children := makeButtons examples in
  setTimeout (InsertPanel ((0, container) :: children)) 1000.

(** *** 4. Keyboard shortcuts *)

Definition keydownHandler (arg : option KeyEvent) : M Closure unit :=
  let* e := match arg with Some e => ret e | None => throw TypeError end in
  when ((metaKey e || ctrlKey e) && String.eqb (key e) "k") (
    emit PreventDefault >>
    let* textarea := querySelector textareaSel in
    when (nonNull textarea) (focus textarea)) >>
  when ((metaKey e || ctrlKey e) && String.eqb (key e) "Enter") (
    emit PreventDefault >>
    let* button := querySelector sendButtonSel in
    when (nonNull button) (click button)).

Definition setupKeyboardShortcuts : M Closure unit :=
  addKeydownListener KeydownHandler.

(** *** 5. Welcome animation *)

Definition addWelcomeAnimation : M Closure unit :=
  let* style := createElement "style" in
  let* head := documentHead in
  appendChild head [(0, style)].

(** *** 6. Watch for dynamic content changes *)

Definition mutationCallback : M Closure unit :=
  let* textarea := querySelector textareaSel in
  let* go := andThen (nonNull textarea)
               (let* mark := getProp textarea (λ e, dataset e !! "placeholderSet") in
                ret (negb (truthy mark))) in
  when go updatePlaceholder.

Definition observeChanges : M Closure unit :=
  let* rootElement := documentElement in
  observe MutationCallback rootElement true true false false.

(** *** Initialize *)

Definition onReady : M Closure unit :=
  consoleLog "EM Spark UI initialized" >>
  updatePlaceholder >>
  focusInput >>
  addQuickActions >>
  setupKeyboardShortcuts >>
  addWelcomeAnimation >>
  observeChanges.

Definition main : M Closure unit :=
  let* l := gets loading in
  (if l then addReadyListener OnReady else onReady) >>
  setTimeout OnReady 1000.

Definition run (c : Closure) (arg : option KeyEvent) : M Closure unit :=
  match c with
  | SetPlaceholder => setPlaceholder
  | FocusTask => focusTask
  | FillInput q => fillInput q
  | InsertPanel container => insertPanel container
  | KeydownHandler => keydownHandler arg
  | MutationCallback => mutationCallback
  | OnReady => onReady
  end.

End V2.

(** ** Pages, timers and states the statements speak about *)

Definition sendButton {C} : Element C :=
  set_data "testid" "send-button" (blank "button").

Definition disabledSendButton {C} : Element C :=
  {| tagName := "button"; elemId := ""; classList := []; typeAttr := None;
     dataset := {[ "testid" := "send-button" ]}; disabled := true;
     hidden := false; value := ""; placeholder := ""; innerText := "";
     onclick := None; clickListeners := [] |}.

Definition emptyPage {C} (h : NodeId → Element C) (n : NodeId)
    (d : list (nat * NodeId)) : State C :=
  {| heap := h; next := n; doc := d; activeElement := None; loading := false;
     timers := []; keydownListeners := []; readyListeners := [];
     observers := []; trace := [] |}.

(** html > (head, body > main > (textarea, send button)) *)
Definition chatPage1 : State V1.Closure :=
  emptyPage (λ n, match n with
                  | 0 => blank "html" | 1 => blank "head" | 2 => blank "body"
                  | 3 => blank "main" | 4 => blank "textarea"
                  | 5 => sendButton
                  | _ => blank "div"
                  end)
            6 [(0, 0); (1, 1); (1, 2); (2, 3); (3, 4); (3, 5)].

(** html > (head, body > composer > (textarea, send button)) *)
Definition chatPage2 (send : Element V2.Closure) : State V2.Closure :=
  emptyPage (λ n, match n with
                  | 0 => blank "html" | 1 => blank "head" | 2 => blank "body"
                  | 3 => set_classList ["cl__composer"] (blank "div")
                  | 4 => blank "textarea"
                  | 5 => send
                  | _ => blank "div"
                  end)
            6 [(0, 0); (1, 1); (1, 2); (2, 3); (3, 4); (3, 5)].

Definition sendTimer (sendButton : option NodeId) : Timer V1.Closure :=
  {| delay := 100; repeating := false; callback := V1.SendClick sendButton |}.

(** [chatPage1] with its input field disabled by the host. *)
Definition disabledFieldPage : State V1.Closure :=
  {| heap := <[4 := {| tagName := "textarea"; elemId := ""; classList := [];
                       typeAttr := None; dataset := ∅; disabled := true;
                       hidden := false; value := ""; placeholder := "";
                       innerText := ""; onclick := None;
                       clickListeners := [] |}]> (heap chatPage1);
     next := 6; doc := doc chatPage1; activeElement := None;
     loading := false; timers := []; keydownListeners := [];
     readyListeners := []; observers := []; trace := [] |}.

(** html > (head, body > main > textarea): the host has not rendered its
    submit control yet. *)
Definition pageWithoutSubmit : State V1.Closure :=
  emptyPage (λ n, match n with
                  | 0 => blank "html" | 1 => blank "head" | 2 => blank "body"
                  | 3 => blank "main" | 4 => blank "textarea"
                  | _ => blank "div"
                  end)
            5 [(0, 0); (1, 1); (1, 2); (2, 3); (3, 4)].

(** The host renders an enabled submit control next to the input field. *)
Definition submitAppears (s : State V1.Closure) : State V1.Closure :=
  with_doc (doc s ++ [(3, next s)])
    (with_next (S (next s)) (with_heap (<[next s := sendButton]> (heap s)) s)).

Definition placeholderTimer : Timer V1.Closure :=
  {| delay := 1000; repeating := true; callback := V1.SetPlaceholder |}.

(** A page whose input field is marked and holds text the user typed. *)
Definition typedPage : State V1.Closure :=
  emptyPage (λ n, match n with
                  | 0 => blank "html" | 1 => blank "head" | 2 => blank "body"
                  | 3 => blank "main"
                  | 4 => set_value "GDAM to"
                           (set_placeholder "Type here"
                              (set_data "placeholderSet" "true" (blank "textarea")))
                  | 5 => sendButton
                  | _ => blank "div"
                  end)
            6 [(0, 0); (1, 1); (1, 2); (2, 3); (3, 4); (3, 5)].

Definition ctrlEnter : KeyEvent :=
  {| metaKey := false; ctrlKey := true; key := "Enter" |}.

Definition placeholderApplied {C} (text : string) (t : NodeId) (s : State C)
    : State C :=
  with_heap (<[t := set_data "placeholderSet" "true"
                      (set_placeholder text (heap s t))]>
             (<[t := set_placeholder text (heap s t)]> (heap s))) s.

(** What one run of [setPlaceholder] does, case by case. *)
Definition placeholderMaintained {C} (text : string) (s : State C) : State C :=
  match findFirst (matchesAny [ByTag "textarea"]) s with
  | Some t =>
      if truthy (dataset (heap s t) !! "placeholderSet") then s
      else placeholderApplied text t s
  | None => s
  end.

Definition readdTimer : Timer V1.Closure :=
  {| delay := 500; repeating := false; callback := V1.AddQuickActions |}.

Definition panelTree (nx : NodeId) : list (nat * NodeId) :=
  [(0, nx); (1, 1 + nx); (1, 2 + nx); (1, 3 + nx);
   (2, 4 + nx); (3, 5 + nx); (3, 6 + nx);
   (2, 7 + nx); (3, 8 + nx); (3, 9 + nx);
   (2, 10 + nx); (3, 11 + nx); (3, 12 + nx);
   (2, 13 + nx); (3, 14 + nx); (3, 15 + nx)].

Definition pageOver {C} (s : State C) (h : NodeId → Element C) (n : NodeId)
    (d : list (nat * NodeId)) : State C :=
  with_heap h (with_next n (with_doc d s)).

Definition placeholderTimer2 : Timer V2.Closure :=
  {| delay := 1000; repeating := true; callback := V2.SetPlaceholder |}.

(** The second revision's observer callback starts the maintainer only for
    an unmarked field. *)
Definition unmarkedField (s : State V2.Closure) : bool :=
  match findFirst (matchesAny V2.textareaSel) s with
  | Some t => negb (truthy (dataset (heap s t) !! "placeholderSet"))
  | None => false
  end.

Definition oneShots {C} (s : State C) : list (Timer C) :=
  List.filter (λ t, negb (repeating t)) (timers s).

(** [n] mutation batches reach observer [k], one after the other. *)
Fixpoint batches {C} (run : C → option KeyEvent → M C unit) (k n : nat)
    (s : State C) : State C :=
  match n with
  | O => s
  | S n' => step run (batches run k n' s) (MutationBatch k)
  end.

(** The first revision started on [chatPage1]: the panel is in. *)
Definition started1 : State V1.Closure := settle (V1.main chatPage1).

(** The second revision started on a page like [chatPage2] and left alone
    until all its timeouts have run: the panel is in. *)
Definition started2 : State V2.Closure :=
  fireTimer V2.run 2
    (fireTimer V2.run 1
       (fireTimer V2.run 1
          (fireTimer V2.run 1 (settle (V2.main (chatPage2 sendButton)))))).

Definition panelTree2 (nx : NodeId) : list (nat * NodeId) :=
  [(0, nx); (1, 1 + nx); (1, 2 + nx); (1, 3 + nx); (1, 4 + nx)].

Definition insertTimer (panel : list (nat * NodeId)) : Timer V2.Closure :=
  {| delay := 1000; repeating := false; callback := V2.InsertPanel panel |}.

(** html > (head, body): the host has rendered nothing yet. *)
Definition barePage {C} : State C :=
  emptyPage (λ n, match n with
                  | 0 => blank "html" | 1 => blank "head" | 2 => blank "body"
                  | _ => blank "div"
                  end)
            3 [(0, 0); (1, 1); (1, 2)].

Definition barePage1 : State V1.Closure := barePage.
Definition barePage2 : State V2.Closure := barePage.

(** The observer the first revision registers on the body. *)
Definition bodyObserver (b : NodeId) : Observer V1.Closure :=
  {| target := b; childList := true; subtree := true; attributes := false;
     characterData := false; onMutations := V1.MutationCallback |}.

Definition rootObserver (r : NodeId) : Observer V2.Closure :=
  {| target := r; childList := true; subtree := true; attributes := false;
     characterData := false; onMutations := V2.MutationCallback |}.

Definition readyTimer : Timer V2.Closure :=
  {| delay := 1000; repeating := false; callback := V2.OnReady |}.

(** The state a script stops in, normally or by an exception. *)
Definition final {C A} (r : Result C A) : State C :=
  match r with Ok _ s => s | Throw _ s => s end.

(** Running [m] moves the observation [π] of the state along [R]. *)
Definition along {C X A} (R : relation X) (π : State C → X) (m : M C A)
    : Prop :=
  ∀ s, R (π s) (π (final (m s))).

(** ** Further pages and observations *)

(** The Escape key, with or without modifiers. *)
Definition escapeKey (m c : bool) : KeyEvent :=
  {| metaKey := m; ctrlKey := c; key := "Escape" |}.

(** [chatPage1] with the input field holding text and the focus. *)
Definition focusedPage : State V1.Closure :=
  with_activeElement (Some 4)
    (with_heap (<[4 := set_value "DAM yes" (blank "textarea")]> (heap chatPage1))
       chatPage1).

(** [chatPage1] with its submit control disabled. *)
Definition busyPage : State V1.Closure :=
  with_heap (<[5 := disabledSendButton]> (heap chatPage1)) chatPage1.

(** How many keydown listeners and observers a page has. *)
Definition registered {C} (s : State C) : nat * nat :=
  (length (keydownListeners s), length (observers s)).

Definition le2 (a b : nat * nat) : Prop := a.1 ≤ b.1 ∧ a.2 ≤ b.2.

(** The objects of the panel the first revision builds, container first, in
    tree order, when the container is allocated at [nx]: the markup's
    elements, each button with its click listener. *)
Definition panelObjects (nx : NodeId) : list (Element V1.Closure) :=
  set_elemId "quick-actions" (blank "div") ::
  imap (λ j e, if matchesAny [ByClass "quick-action-btn"] e
               then add_clickListener (V1.QuickActionClick (1 + j + nx)) e
               else e)
       (snd <$> V1.panelMarkup).

(** The objects of the panel the second revision builds. *)
Definition panelObjects2 : list (Element V2.Closure) :=
  set_elemId "quick-actions" (blank "div") ::
  ((λ ex, set_onclick (V2.FillInput (V2.query ex))
            (set_innerText (V2.emoji ex ++ " " ++ V2.text ex) (blank "button")))
     <$> V2.examples).

(** The focus timeout the first revision queues. *)
Definition focusTimer : Timer V1.Closure :=
  {| delay := 500; repeating := false; callback := V1.FocusTask |}.

(** html > body > (composer > (textarea, send button)): a document whose
    head the host has removed. *)
Definition headlessPage : State V2.Closure :=
  emptyPage (λ n, match n with
                  | 0 => blank "html" | 1 => blank "body"
                  | 2 => set_classList ["cl__composer"] (blank "div")
                  | 3 => blank "textarea"
                  | 4 => sendButton
                  | _ => blank "div"
                  end)
            5 [(0, 0); (1, 1); (2, 2); (3, 3); (3, 4)].

(** ** Reasoning about scripts *)

Arguments firstMatch : simpl never.
Arguments firstChild : simpl never.
Arguments attachedIn : simpl never.
Arguments countIn : simpl never.
Arguments splitAt : simpl never.
Arguments inside : simpl never.

Section Facts.
Context {Closure : Type}.
Implicit Types (s : State Closure) (p : Element Closure → bool)
  (h : NodeId → Element Closure) (d : list (nat * NodeId)).

Lemma firstMatch_attached p h d n :
  firstMatch p h d = Some n → attachedIn n d = true.
Proof.
  unfold firstMatch, attachedIn.
  induction d as [|[k m] l IH]; simpl; [discriminate|].
  destruct (p (h m)); simpl.
  - intros [= ->]. by rewrite Nat.eqb_refl.
  - intros H. rewrite (IH H). apply orb_true_r.
Qed.

Lemma giveFocus_frame n s :
  heap (giveFocus n s) = heap s ∧ next (giveFocus n s) = next s
  ∧ doc (giveFocus n s) = doc s ∧ loading (giveFocus n s) = loading s
  ∧ timers (giveFocus n s) = timers s
  ∧ keydownListeners (giveFocus n s) = keydownListeners s
  ∧ readyListeners (giveFocus n s) = readyListeners s
  ∧ observers (giveFocus n s) = observers s
  ∧ trace (giveFocus n s) = trace s.
Proof. unfold giveFocus. by destruct (_ && _). Qed.

Lemma giveFocus_heap n s : heap (giveFocus n s) = heap s.
Proof. apply giveFocus_frame. Qed.
Lemma giveFocus_next n s : next (giveFocus n s) = next s.
Proof. apply giveFocus_frame. Qed.
Lemma giveFocus_doc n s : doc (giveFocus n s) = doc s.
Proof. apply giveFocus_frame. Qed.
Lemma giveFocus_loading n s : loading (giveFocus n s) = loading s.
Proof. apply giveFocus_frame. Qed.
Lemma giveFocus_timers n s : timers (giveFocus n s) = timers s.
Proof. apply giveFocus_frame. Qed.
Lemma giveFocus_keydownListeners n s :
  keydownListeners (giveFocus n s) = keydownListeners s.
Proof. apply giveFocus_frame. Qed.
Lemma giveFocus_readyListeners n s :
  readyListeners (giveFocus n s) = readyListeners s.
Proof. apply giveFocus_frame. Qed.
Lemma giveFocus_observers n s : observers (giveFocus n s) = observers s.
Proof. apply giveFocus_frame. Qed.
Lemma giveFocus_trace n s : trace (giveFocus n s) = trace s.
Proof. apply giveFocus_frame. Qed.

(** An element found in the document takes the focus unless it is disabled
    or hidden. *)
Lemma giveFocus_attached n s :
  attachedIn n (doc s) = true →
  giveFocus n s =
  if focusable (heap s n) then with_activeElement (Some n) s else s.
Proof. intros Hn. unfold giveFocus, isAttached. by rewrite Hn. Qed.

End Facts.

Ltac focus_frame :=
  rewrite ?giveFocus_heap, ?giveFocus_next, ?giveFocus_doc,
    ?giveFocus_loading, ?giveFocus_timers, ?giveFocus_keydownListeners,
    ?giveFocus_readyListeners, ?giveFocus_observers, ?giveFocus_trace.

(** Symbolic execution of a script on a state. *)
Ltac unfold_script :=
  unfold when, andThen, getProp, setProp, deref, focus, blur, select, click,
    dispatchEvent, consoleLog, emit, setTimeout, setInterval,
    addKeydownListener, addReadyListener, observe, querySelector,
    getElementById, documentHead, documentBody, documentElement,
    createElement, alloc, modify, gets, throw, ret, bind,
    findFirst, isAttached, countWithId,
    with_heap, with_next, with_doc, with_activeElement, with_loading,
    with_timers, with_keydownListeners, with_readyListeners, with_observers,
    with_trace in *.

Ltac step_script := unfold_script; simpl in *.

(** ** Message dispatcher (first revision) *)

(** C4, as the code has it.  [sendMessage(text)], called with the input
    field [t] and a submit control [b] in the document, returns normally
    with [t.value = text], exactly the two calls [dispatchEvent(input,
    bubbles)] and [focus()] on [t] added to the trace and one 100 ms timeout
    pending.  The field is the active element afterwards if it can take the
    focus; a disabled or hidden field gets the call and the focus stays
    where it was.  When the timeout comes due in a state where [b] is not
    disabled, exactly one click event is dispatched at [b] and the timeout
    leaves the timer table. *)
Theorem sendMessage_contract (s : State V1.Closure) (text : string)
    (t b : NodeId) :
  findFirst (matchesAny V1.textareaSel) s = Some t →
  findFirst (matchesAny V1.sendButtonSel) s = Some b →
  ∃ s1, V1.sendMessage text s = Ok tt s1
    ∧ value (heap s1 t) = text
    ∧ trace s1 = trace s ++ [DispatchEvent t "input" true; Focus t]
    ∧ activeElement s1 =
        (if focusable (heap s t) then Some t else activeElement s)
    ∧ timers s1 = timers s ++ [sendTimer (Some b)]
    ∧ ∀ (s2 : State V1.Closure) (i : nat),
        timers s2 !! i = Some (sendTimer (Some b)) →
        disabled (heap s2 b) = false →
        trace (fireTimer V1.run i s2) = trace s2 ++ [Click b]
        ∧ timers (fireTimer V1.run i s2) = delete i (timers s2).
Proof.
  intros Ht Hb. unfold V1.sendMessage. step_script. rewrite Ht, Hb. simpl.
  eexists; split; [reflexivity|]. cbn [heap trace activeElement timers].
  focus_frame. cbn [heap trace timers].
  split_and!.
  - by rewrite fn_lookup_insert.
  - by rewrite <- app_assoc.
  - rewrite giveFocus_attached
      by exact (firstMatch_attached _ _ _ _ Ht).
    cbn [heap]. rewrite fn_lookup_insert.
    change (focusable (set_value text (heap s t)))
      with (focusable (heap s t)).
    by destruct (focusable (heap s t)).
  - done.
  - intros s2 i Hi Hen.
    unfold fireTimer. rewrite Hi. unfold V1.run, V1.sendClick, sendTimer.
    step_script. by rewrite Hen; simpl; rewrite Hen.
Qed.

Lemma sendMessage_contract_witness :
  ∃ s1, V1.sendMessage "RTM rate for last hour" chatPage1 = Ok tt s1
    ∧ value (heap s1 4) = "RTM rate for last hour"
    ∧ trace s1 = trace chatPage1 ++ [DispatchEvent 4 "input" true; Focus 4]
    ∧ activeElement s1 =
        (if focusable (heap chatPage1 4) then Some 4
         else activeElement chatPage1)
    ∧ timers s1 = timers chatPage1 ++ [sendTimer (Some 5)]
    ∧ ∀ (s2 : State V1.Closure) (i : nat),
        timers s2 !! i = Some (sendTimer (Some 5)) →
        disabled (heap s2 5) = false →
        trace (fireTimer V1.run i s2) = trace s2 ++ [Click 5]
        ∧ timers (fireTimer V1.run i s2) = delete i (timers s2).
Proof.
  apply (sendMessage_contract chatPage1 "RTM rate for last hour" 4 5);
    reflexivity.
Defined.

(** C4 as stated fails: the input field is present, the submit control is
    present and enabled, [sendMessage] sets the value, dispatches the event
    and calls [focus()], and the field is not focused, because the host has
    disabled it; the timeout still clicks the submit control. *)
Lemma sendMessage_contract_counterexample :
  let s1 := settle (V1.sendMessage "RTM rate for last hour" disabledFieldPage) in
  findFirst (matchesAny V1.textareaSel) disabledFieldPage = Some 4
  ∧ findFirst (matchesAny V1.sendButtonSel) disabledFieldPage = Some 5
  ∧ disabled (heap disabledFieldPage 5) = false
  ∧ disabled (heap disabledFieldPage 4) = true
  ∧ value (heap s1 4) = "RTM rate for last hour"
  ∧ trace s1 = [DispatchEvent 4 "input" true; Focus 4]
  ∧ activeElement s1 = None
  ∧ timers s1 = [sendTimer (Some 5)]
  ∧ trace (fireTimer V1.run 0 s1) =
      [DispatchEvent 4 "input" true; Focus 4; Click 5].
Proof. repeat split; reflexivity. Qed.

(** The submit control is looked up when [sendMessage] is called; the timeout
    holds that reference. *)
Lemma sendClick_spec (r : option NodeId) (s2 : State V1.Closure) :
  V1.sendClick r s2 =
  Ok tt (match r with
         | Some b => if disabled (heap s2 b) then s2
                     else with_trace (trace s2 ++ [Click b]) s2
         | None => s2
         end).
Proof.
  unfold V1.sendClick. destruct r as [b|]; step_script; [|done].
  destruct (disabled (heap s2 b)) eqn:Hd; simpl; [done|]. by rewrite Hd.
Qed.

(** C5, as the code has it.  With the input field present, [sendMessage]
    resolves the submit control once, when it is called, and stores that
    result in the 100 ms timeout.  When the timeout runs, in whatever state
    the page then is, it clicks the stored element if that element is not
    disabled at that moment, and does nothing when the stored result was
    [null]; the document is not queried again. *)
Theorem sendMessage_resolves_submit_at_call (s : State V1.Closure)
    (text : string) (t : NodeId) :
  findFirst (matchesAny V1.textareaSel) s = Some t →
  ∃ s1, V1.sendMessage text s = Ok tt s1
    ∧ timers s1 =
        timers s ++ [sendTimer (findFirst (matchesAny V1.sendButtonSel) s)]
    ∧ ∀ s2 : State V1.Closure,
        V1.run (V1.SendClick (findFirst (matchesAny V1.sendButtonSel) s)) None s2 =
        Ok tt (match findFirst (matchesAny V1.sendButtonSel) s with
               | Some b => if disabled (heap s2 b) then s2
                           else with_trace (trace s2 ++ [Click b]) s2
               | None => s2
               end).
Proof.
  intros Ht. eexists. split_and!.
  - unfold V1.sendMessage. step_script. rewrite Ht. simpl. reflexivity.
  - cbn [timers]. by focus_frame.
  - intros s2. apply sendClick_spec.
Qed.

Lemma sendMessage_resolves_submit_at_call_witness :
  ∃ s1, V1.sendMessage "DAM yesterday" chatPage1 = Ok tt s1
    ∧ timers s1 =
        timers chatPage1 ++
        [sendTimer (findFirst (matchesAny V1.sendButtonSel) chatPage1)]
    ∧ ∀ s2 : State V1.Closure,
        V1.run (V1.SendClick (findFirst (matchesAny V1.sendButtonSel) chatPage1))
               None s2 =
        Ok tt (match findFirst (matchesAny V1.sendButtonSel) chatPage1 with
               | Some b => if disabled (heap s2 b) then s2
                           else with_trace (trace s2 ++ [Click b]) s2
               | None => s2
               end).
Proof.
  apply (sendMessage_resolves_submit_at_call chatPage1 "DAM yesterday" 4).
  reflexivity.
Defined.

(** C5 as stated fails: no submit control when [sendMessage] is called, an
    enabled one in the document when the delay elapses, and the timeout
    clicks nothing. *)
Lemma fresh_resolution_counterexample :
  let s1 := settle (V1.sendMessage "DAM yesterday" pageWithoutSubmit) in
  let s2 := submitAppears s1 in
  findFirst (matchesAny V1.sendButtonSel) pageWithoutSubmit = None
  ∧ value (heap s2 4) = "DAM yesterday"
  ∧ findFirst (matchesAny V1.sendButtonSel) s2 = Some 5
  ∧ disabled (heap s2 5) = false
  ∧ timers s2 = [sendTimer None]
  ∧ clickCount (trace (fireTimer V1.run 0 s2)) = 0
  ∧ timers (fireTimer V1.run 0 s2) = [].
Proof. repeat split; reflexivity. Qed.

(** ** Placeholder maintainer *)

Lemma setPlaceholder_marked (s : State V1.Closure) (t : NodeId) :
  findFirst (matchesAny V1.textareaSel) s = Some t →
  truthy (dataset (heap s t) !! "placeholderSet") = true →
  V1.setPlaceholder s = Ok tt s.
Proof.
  intros Ht Hm. unfold V1.setPlaceholder. step_script.
  rewrite Ht. simpl. by rewrite Hm.
Qed.

Lemma updatePlaceholder_marked (s : State V1.Closure) (t : NodeId) :
  findFirst (matchesAny V1.textareaSel) s = Some t →
  truthy (dataset (heap s t) !! "placeholderSet") = true →
  V1.updatePlaceholder s = Ok tt (with_timers (timers s ++ [placeholderTimer]) s).
Proof.
  intros Ht Hm. unfold V1.updatePlaceholder, bind.
  by rewrite (setPlaceholder_marked s t Ht Hm).
Qed.

(** C6. Once the first [textarea] of the document carries a truthy
    [placeholderSet], any number [n] of calls of [updatePlaceholder] return
    normally and leave every element object and the document tree as they
    were, whatever the field's value and placeholder are; so do the ticks of
    the intervals those calls start. *)
Theorem placeholder_not_clobbered (n : nat) (s : State V1.Closure)
    (t : NodeId) :
  findFirst (matchesAny V1.textareaSel) s = Some t →
  truthy (dataset (heap s t) !! "placeholderSet") = true →
  ∃ s', times n V1.updatePlaceholder s = Ok tt s'
    ∧ heap s' = heap s
    ∧ doc s' = doc s
    ∧ value (heap s' t) = value (heap s t)
    ∧ placeholder (heap s' t) = placeholder (heap s t)
    ∧ V1.run V1.SetPlaceholder None s' = Ok tt s'.
Proof.
  revert s. induction n as [|n IH]; intros s Ht Hm.
  - exists s. split_and!; try done. by apply (setPlaceholder_marked s t).
  - simpl. unfold bind at 1.
    rewrite (updatePlaceholder_marked s t Ht Hm).
    destruct (IH (with_timers (timers s ++ [placeholderTimer]) s) Ht Hm)
      as (s' & Hrun & Hh & Hd & Hv & Hp & Htick).
    exists s'. by split_and!.
Qed.

Lemma placeholder_not_clobbered_witness :
  ∃ s', times 3 V1.updatePlaceholder typedPage = Ok tt s'
    ∧ heap s' = heap typedPage
    ∧ doc s' = doc typedPage
    ∧ value (heap s' 4) = value (heap typedPage 4)
    ∧ placeholder (heap s' 4) = placeholder (heap typedPage 4)
    ∧ V1.run V1.SetPlaceholder None s' = Ok tt s'.
Proof. apply (placeholder_not_clobbered 3 typedPage 4); reflexivity. Defined.

(** ** Submit shortcut (second revision) *)

(** C8. On platform-modifier + Enter the handler calls [preventDefault()],
    resolves [[data-testid=send-button]] and calls [click()] on it when it
    is present.  A click event reaches the control exactly when it is
    present and not disabled: with the control disabled or absent nothing is
    clicked, with it enabled it is clicked once; nothing else on the page
    changes.  [setupKeyboardShortcuts] registers this handler, and a keydown
    event on a page where it is the one listener does just that. *)
Theorem submit_shortcut_respects_disabled (s : State V2.Closure)
    (e : KeyEvent) :
  metaKey e || ctrlKey e = true →
  key e = "Enter" →
  ∃ s', V2.keydownHandler (Some e) s = Ok tt s'
    ∧ s' = with_trace
             (trace s ++ PreventDefault ::
                match findFirst (matchesAny V2.sendButtonSel) s with
                | Some b => if disabled (heap s b) then [] else [Click b]
                | None => []
                end) s
    ∧ (∀ b, findFirst (matchesAny V2.sendButtonSel) s = Some b →
         disabled (heap s b) = true →
         clickCount (trace s') = clickCount (trace s))
    ∧ (findFirst (matchesAny V2.sendButtonSel) s = None →
       clickCount (trace s') = clickCount (trace s))
    ∧ (∀ b, findFirst (matchesAny V2.sendButtonSel) s = Some b →
         disabled (heap s b) = false →
         clicksOn b (trace s') = S (clicksOn b (trace s))
         ∧ clickCount (trace s') = S (clickCount (trace s)))
    ∧ V2.setupKeyboardShortcuts s =
        Ok tt (with_keydownListeners
                 (keydownListeners s ++ [V2.KeydownHandler]) s)
    ∧ (keydownListeners s = [V2.KeydownHandler] →
       step V2.run s (KeyDown e) = s').
Proof.
  intros Hmod Hkey.
  assert (Hrun : V2.keydownHandler (Some e) s =
            Ok tt (with_trace
                     (trace s ++ PreventDefault ::
                        match findFirst (matchesAny V2.sendButtonSel) s with
                        | Some b =>
                            if disabled (heap s b) then [] else [Click b]
                        | None => []
                        end) s)).
  { unfold V2.keydownHandler. step_script. rewrite Hmod, Hkey. simpl.
    destruct (firstMatch _ _ _) as [b|]; simpl; [|reflexivity].
    destruct (disabled (heap s b)); simpl; [reflexivity|].
    by rewrite <- app_assoc. }
  exists (with_trace
            (trace s ++ PreventDefault ::
               match findFirst (matchesAny V2.sendButtonSel) s with
               | Some b => if disabled (heap s b) then [] else [Click b]
               | None => []
               end) s).
  split_and!.
  - exact Hrun.
  - reflexivity.
  - intros b Hb Hd. rewrite Hb, Hd. cbn [with_trace trace].
    unfold clickCount. rewrite List.filter_app, length_app. simpl. lia.
  - intros Hb. rewrite Hb. cbn [with_trace trace].
    unfold clickCount. rewrite List.filter_app, length_app. simpl. lia.
  - intros b Hb Hd. rewrite Hb, Hd. cbn [with_trace trace].
    unfold clicksOn, clickCount. rewrite !List.filter_app, !length_app.
    simpl. rewrite Nat.eqb_refl. simpl. lia.
  - reflexivity.
  - intros Hl. cbn [step]. unfold keydown, runAll. rewrite Hl.
    cbn [foldl V2.run]. by rewrite Hrun.
Qed.

Lemma submit_shortcut_respects_disabled_witness :
  ∃ s', V2.keydownHandler (Some ctrlEnter) (chatPage2 disabledSendButton) =
        Ok tt s'
    ∧ s' = with_trace
             (trace (chatPage2 disabledSendButton) ++ PreventDefault ::
                match findFirst (matchesAny V2.sendButtonSel)
                        (chatPage2 disabledSendButton) with
                | Some b =>
                    if disabled (heap (chatPage2 disabledSendButton) b)
                    then [] else [Click b]
                | None => []
                end) (chatPage2 disabledSendButton)
    ∧ (∀ b, findFirst (matchesAny V2.sendButtonSel)
              (chatPage2 disabledSendButton) = Some b →
         disabled (heap (chatPage2 disabledSendButton) b) = true →
         clickCount (trace s') =
         clickCount (trace (chatPage2 disabledSendButton)))
    ∧ (findFirst (matchesAny V2.sendButtonSel)
         (chatPage2 disabledSendButton) = None →
       clickCount (trace s') =
       clickCount (trace (chatPage2 disabledSendButton)))
    ∧ (∀ b, findFirst (matchesAny V2.sendButtonSel)
              (chatPage2 disabledSendButton) = Some b →
         disabled (heap (chatPage2 disabledSendButton) b) = false →
         clicksOn b (trace s') =
         S (clicksOn b (trace (chatPage2 disabledSendButton)))
         ∧ clickCount (trace s') =
           S (clickCount (trace (chatPage2 disabledSendButton))))
    ∧ V2.setupKeyboardShortcuts (chatPage2 disabledSendButton) =
        Ok tt (with_keydownListeners
                 (keydownListeners (chatPage2 disabledSendButton) ++
                    [V2.KeydownHandler])
                 (chatPage2 disabledSendButton))
    ∧ (keydownListeners (chatPage2 disabledSendButton) =
         [V2.KeydownHandler] →
       step V2.run (chatPage2 disabledSendButton) (KeyDown ctrlEnter) = s').
Proof.
  apply (submit_shortcut_respects_disabled (chatPage2 disabledSendButton)
           ctrlEnter); reflexivity.
Defined.

(** ** What a script leaves alone *)

#[global] Instance le_preorder : PreOrder le := Nat.le_preorder.

Section Along.
Context {Closure : Type} {X : Type} (R : relation X) `{!PreOrder R}.
Context (π : State Closure → X).
#[local] Abbreviation along := (along R π).

Lemma along_ret {A} (a : A) : along (ret a).
Proof. intros s. reflexivity. Qed.

Lemma along_throw {A} (f : Fault) : along (throw (A:=A) f).
Proof. intros s. reflexivity. Qed.

Lemma along_gets {A} (f : State Closure → A) : along (gets f).
Proof. intros s. reflexivity. Qed.

Lemma along_bind {A B} (m : M Closure A) (k : A → M Closure B) :
  along m → (∀ a, along (k a)) → along (bind m k).
Proof.
  intros Hm Hk s. unfold bind. specialize (Hm s).
  destruct (m s) as [a s'|f s']; simpl in *; [|done].
  etrans; [exact Hm|apply Hk].
Qed.

Lemma along_modify (f : State Closure → State Closure) :
  (∀ s, R (π s) (π (f s))) → along (modify f).
Proof. intros Hf s. apply Hf. Qed.

Lemma along_when (b : bool) (m : M Closure unit) : along m → along (when b m).
Proof. intros Hm. destruct b; [exact Hm|apply along_ret]. Qed.

Lemma along_andThen (a : bool) (b : M Closure bool) :
  along b → along (andThen a b).
Proof. intros Hb. destruct a; [exact Hb|apply along_ret]. Qed.

Lemma along_deref (r : option NodeId) : along (deref r).
Proof. destruct r; [apply along_ret|apply along_throw]. Qed.

Lemma along_forEach {A} (l : list A) (f : A → M Closure unit) :
  (∀ a, along (f a)) → along (forEach l f).
Proof.
  intros Hf. induction l as [|a l IH]; simpl; [apply along_ret|].
  apply along_bind; [apply Hf|intros _; exact IH].
Qed.

Lemma along_settle (m : M Closure unit) (s : State Closure) :
  along m → (∀ s t, π (with_trace t s) = π s) → R (π s) (π (settle (m s))).
Proof.
  intros Hm Ht. specialize (Hm s). unfold settle.
  destruct (m s) as [a s'|f s']; simpl in *; [done|]. by rewrite Ht.
Qed.

End Along.

Ltac unfold_prims :=
  unfold getProp, setProp, focus, blur, select, click, dispatchEvent,
    consoleLog, emit, setTimeout, setInterval, addKeydownListener,
    addReadyListener, observe, querySelector, getElementById,
    querySelectorAllIn, documentHead, documentBody, documentElement,
    createElement, alloc, insertAdjacentElement, appendChild.

(** Decomposes [along R π m] along the structure of [m]; [leaf] closes the
    goals [R (π s) (π (f s))] left by the state updates. *)
Ltac along_step leaf :=
  lazymatch goal with
  | |- along ?R ?π (match ?x with _ => _ end) => destruct x
  | |- along ?R ?π _ =>
      first
        [ apply (along_ret R) | apply (along_throw R) | apply (along_gets R)
        | apply (along_deref R)
        | apply (along_bind R); [|intros ?]
        | apply (along_when R) | apply (along_andThen R)
        | apply (along_forEach R); intros ?
        | apply (along_modify R); intros ?; try unfold giveFocus; leaf
        | progress unfold_prims ]
  end.

Ltac along_auto leaf := repeat along_step leaf.

Section Intervals.
Context {Closure : Type}.

Lemma intervalCount_delete (l : list (Timer Closure)) (i : nat) (t : Timer Closure) :
  l !! i = Some t → repeating t = false →
  List.filter repeating (delete i l) = List.filter repeating l.
Proof.
  revert i. induction l as [|x l IH]; intros [|i] Hi Hr; simpl in *; try done.
  - injection Hi as ->. by rewrite Hr.
  - by rewrite (IH i Hi Hr).
Qed.

End Intervals.

Ltac intervals_leaf :=
  unfold intervalCount; repeat case_match; simpl;
  try (rewrite List.filter_app, length_app; simpl); lia.

Lemma parseInto_intervals {C} (markup : list (nat * Element C)) :
  along le intervalCount (parseInto markup).
Proof.
  induction markup as [|[d e] l IH]; simpl; along_auto intervals_leaf.
  exact IH.
Qed.

Lemma V1_run_intervals (c : V1.Closure) (arg : option KeyEvent) :
  along le intervalCount (V1.run c arg).
Proof.
  assert (Hset : along le intervalCount V1.setPlaceholder)
    by (unfold V1.setPlaceholder; along_auto intervals_leaf).
  assert (Hupd : along le intervalCount V1.updatePlaceholder)
    by (unfold V1.updatePlaceholder; along_auto intervals_leaf).
  assert (Hsend : ∀ q, along le intervalCount (V1.sendMessage q))
    by (intros q; unfold V1.sendMessage; along_auto intervals_leaf).
  assert (Hadd : along le intervalCount V1.addQuickActions).
  { unfold V1.addQuickActions. apply (along_bind le); [along_auto intervals_leaf|].
    intros ex. destruct (nonNull ex); [apply (along_ret le)|].
    apply (along_bind le); [along_auto intervals_leaf|]. intros c0.
    apply (along_bind le); [along_auto intervals_leaf|]. intros _.
    apply (along_bind le); [apply parseInto_intervals|]. intros ch.
    along_auto intervals_leaf. }
  destruct c; simpl.
  - exact Hset.
  - unfold V1.focusTask; along_auto intervals_leaf.
  - exact Hadd.
  - unfold V1.quickActionClick. apply (along_bind le); [along_auto intervals_leaf|].
    intros q. apply Hsend.
  - unfold V1.sendClick; along_auto intervals_leaf.
  - unfold V1.keydownHandler; along_auto intervals_leaf.
  - unfold V1.mutationCallback. apply (along_bind le); [exact Hupd|]. intros _.
    along_auto intervals_leaf.
  - unfold V1.onReady.
    repeat (apply (along_bind le); [|intros _]); try done.
    all: unfold V1.focusInput, V1.setupKeyboardShortcuts,
           V1.addWelcomeAnimation, V1.observeChanges;
         along_auto intervals_leaf.
Qed.

Section LoopIntervals.
Context {Closure : Type} (run : Closure → option KeyEvent → M Closure unit).
Hypothesis run_intervals : ∀ c arg, along le intervalCount (run c arg).

Lemma settle_intervals (c : Closure) (arg : option KeyEvent) (s : State Closure) :
  intervalCount s ≤ intervalCount (settle (run c arg s)).
Proof. apply (along_settle le); [apply run_intervals|done]. Qed.

Lemma runAll_intervals (cs : list Closure) (arg : option KeyEvent)
    (s : State Closure) :
  intervalCount s ≤ intervalCount (runAll run cs arg s).
Proof.
  revert s. induction cs as [|c cs IH]; intros s; simpl; [done|].
  etrans; [apply (settle_intervals c arg)|apply IH].
Qed.

Lemma step_intervals (s : State Closure) (ev : Event Closure) :
  intervalCount s ≤ intervalCount (step run s ev).
Proof.
  destruct ev as [i|k|e|n| |h n d a]; simpl.
  - unfold fireTimer. destruct (timers s !! i) as [t|] eqn:Hi; [|done].
    destruct (repeating t) eqn:Hr; [apply settle_intervals|].
    etrans; [|apply settle_intervals].
    unfold intervalCount. simpl. by rewrite (intervalCount_delete _ _ _ Hi Hr).
  - unfold deliverMutations. destruct (observers s !! k); [|done].
    apply settle_intervals.
  - apply runAll_intervals.
  - apply runAll_intervals.
  - unfold domContentLoaded. etrans; [|apply runAll_intervals]. done.
  - done.
Qed.

End LoopIntervals.

Lemma placeholderMaintained_frame {C} (text : string) (s : State C) :
  let s' := placeholderMaintained text s in
  timers s' = timers s ∧ doc s' = doc s ∧ next s' = next s
  ∧ keydownListeners s' = keydownListeners s ∧ observers s' = observers s
  ∧ trace s' = trace s ∧ activeElement s' = activeElement s.
Proof.
  unfold placeholderMaintained, placeholderApplied.
  destruct (findFirst _ s) as [t|]; [destruct (truthy _)|]; done.
Qed.

Lemma placeholderMaintained_heap {C} (text : string) (s : State C)
    (m : NodeId) :
  heap (placeholderMaintained text s) m =
  if bool_decide (findFirst (matchesAny [ByTag "textarea"]) s = Some m)
     && negb (truthy (dataset (heap s m) !! "placeholderSet"))
  then set_data "placeholderSet" "true" (set_placeholder text (heap s m))
  else heap s m.
Proof.
  unfold placeholderMaintained, placeholderApplied.
  destruct (findFirst _ s) as [t|]; [|done].
  case_bool_decide as Hm; simpl.
  - injection Hm as <-. destruct (truthy _); simpl; [done|].
    by rewrite fn_lookup_insert.
  - destruct (truthy _); simpl; [done|].
    rewrite !fn_lookup_insert_ne; [done|congruence..].
Qed.

Lemma V1_setPlaceholder_spec (s : State V1.Closure) :
  V1.setPlaceholder s = Ok tt (placeholderMaintained V1.placeholderText s).
Proof.
  unfold V1.setPlaceholder, placeholderMaintained, placeholderApplied.
  unfold V1.textareaSel. step_script.
  destruct (firstMatch _ _ _) as [t|]; simpl; [|done].
  destruct (truthy _); simpl; [done|].
  by rewrite fn_lookup_insert.
Qed.

Lemma V1_updatePlaceholder_spec (s : State V1.Closure) :
  V1.updatePlaceholder s =
  Ok tt (with_timers (timers s ++ [placeholderTimer])
           (placeholderMaintained V1.placeholderText s)).
Proof.
  unfold V1.updatePlaceholder, bind. rewrite V1_setPlaceholder_spec.
  unfold placeholderMaintained, placeholderApplied. step_script.
  destruct (firstMatch _ _ _) as [t|]; simpl; [|done].
  by destruct (truthy _).
Qed.

Lemma V1_mutationCallback_spec (s : State V1.Closure) :
  let s1 := placeholderMaintained V1.placeholderText s in
  V1.mutationCallback s =
  Ok tt (with_timers
           (timers s ++ placeholderTimer ::
              if nonNull (findFirst (hasId "quick-actions") s1) then []
              else [readdTimer]) s1).
Proof.
  unfold V1.mutationCallback, bind. rewrite V1_updatePlaceholder_spec.
  unfold placeholderMaintained, placeholderApplied. step_script.
  destruct (firstMatch (matchesAny _) _ _) as [t|]; simpl.
  - destruct (truthy _); simpl.
    + destruct (firstMatch _ _ _); simpl; [done|]. by rewrite <- app_assoc.
    + destruct (firstMatch _ _ _); simpl; [done|]. by rewrite <- app_assoc.
  - destruct (firstMatch _ _ _); simpl; [done|]. by rewrite <- app_assoc.
Qed.

(** ** Timer accumulation (first revision) *)

(** C10. Every call of [updatePlaceholder] returns normally with one more
    repeating 1000 ms timer in the table; no event of the page's life (a timer
    coming due, a mutation batch, a key, a click, the load event, a host
    re-render) lowers the number of repeating timers.  [observeChanges]
    registers an observer on the body that carries the observer callback,
    and every mutation batch that reaches an observer carrying it raises the
    number of repeating timers by exactly one, so [n] batches raise it by
    [n]: whatever [n] batches reach the observer that [observeChanges] has
    just registered, [n] more intervals are live afterwards. *)
Theorem interval_timers_accumulate :
  (∀ s : State V1.Closure, ∃ s',
      V1.updatePlaceholder s = Ok tt s'
      ∧ timers s' = timers s ++ [placeholderTimer]
      ∧ intervalCount s' = S (intervalCount s))
  ∧ (∀ (s : State V1.Closure) (ev : Event V1.Closure),
      intervalCount s ≤ intervalCount (step V1.run s ev))
  ∧ (∀ (s : State V1.Closure) (b : NodeId),
      firstChild isBody (heap s) (doc s) = Some b →
      V1.observeChanges s =
        Ok tt (with_observers (observers s ++ [bodyObserver b]) s)
      ∧ ∀ n : nat,
          intervalCount
            (batches V1.run (length (observers s)) n
               (settle (V1.observeChanges s))) =
          intervalCount s + n)
  ∧ (∀ (s : State V1.Closure) (k : nat) (o : Observer V1.Closure),
      observers s !! k = Some o →
      onMutations o = V1.MutationCallback →
      intervalCount (step V1.run s (MutationBatch k)) = S (intervalCount s)
      ∧ observers (step V1.run s (MutationBatch k)) = observers s
      ∧ ∀ n : nat,
          intervalCount (batches V1.run k n s) = intervalCount s + n)
  ∧ (∀ s : State V1.Closure, ∃ s',
      V1.run V1.MutationCallback None s = Ok tt s'
      ∧ intervalCount s' = S (intervalCount s))
  ∧ (∀ (n : nat) (s : State V1.Closure), ∃ s',
      times n V1.mutationCallback s = Ok tt s'
      ∧ intervalCount s' = intervalCount s + n).
Proof.
  assert (Hcb : ∀ s : State V1.Closure, ∃ s',
             V1.mutationCallback s = Ok tt s'
             ∧ intervalCount s' = S (intervalCount s)
             ∧ observers s' = observers s).
  { intros s. eexists. split; [apply V1_mutationCallback_spec|].
    split.
    - unfold intervalCount. simpl.
      rewrite List.filter_app, length_app. simpl.
      destruct (nonNull _); simpl; lia.
    - cbn [with_timers observers].
      apply (placeholderMaintained_frame V1.placeholderText s). }
  assert (Hstep : ∀ (s : State V1.Closure) (k : nat) (o : Observer V1.Closure),
             observers s !! k = Some o →
             onMutations o = V1.MutationCallback →
             intervalCount (step V1.run s (MutationBatch k)) =
               S (intervalCount s)
             ∧ observers (step V1.run s (MutationBatch k)) = observers s).
  { intros s k o Hk Ho. cbn [step]. unfold deliverMutations.
    rewrite Hk, Ho. cbn [V1.run].
    destruct (Hcb s) as (s' & Hrun & Hc & Hobs). by rewrite Hrun. }
  assert (Hn : ∀ (n : nat) (s : State V1.Closure) (k : nat)
                 (o : Observer V1.Closure),
             observers s !! k = Some o →
             onMutations o = V1.MutationCallback →
             intervalCount (batches V1.run k n s) = intervalCount s + n
             ∧ observers (batches V1.run k n s) = observers s).
  { induction n as [|n IH]; intros s k o Hk Ho.
    - split; [cbn; lia|done].
    - destruct (IH s k o Hk Ho) as [Hc Hobs]. cbn [batches].
      destruct (Hstep (batches V1.run k n s) k o) as [Hc' Hobs'];
        [by rewrite Hobs|done|].
      split; [lia|congruence]. }
  split_and!.
  - intros s. eexists. split; [apply V1_updatePlaceholder_spec|].
    split; [done|].
    unfold intervalCount. simpl.
    rewrite List.filter_app, length_app. simpl. lia.
  - apply step_intervals, V1_run_intervals.
  - intros s b Hb.
    assert (Hrun : V1.observeChanges s =
                   Ok tt (with_observers (observers s ++ [bodyObserver b]) s)).
    { unfold V1.observeChanges, documentBody, observe, deref, bind, gets,
        modify, ret.
      by rewrite Hb. }
    split; [exact Hrun|]. intros n. rewrite Hrun. cbn [settle].
    destruct (Hn n (with_observers (observers s ++ [bodyObserver b]) s)
                (length (observers s)) (bodyObserver b)) as [Hc _];
      [|done|exact Hc].
    cbn [with_observers observers]. by apply list_lookup_middle.
  - intros s k o Hk Ho.
    destruct (Hstep s k o Hk Ho) as [Hc Hobs].
    split; [exact Hc|]. split; [exact Hobs|].
    intros n. by destruct (Hn n s k o Hk Ho).
  - intros s. destruct (Hcb s) as (s' & Hrun & Hc & _). by exists s'.
  - induction n as [|n IH]; intros s.
    + exists s. split; [done|lia].
    + destruct (Hcb s) as (s1 & H1 & Hc1 & _).
      destruct (IH s1) as (s' & H' & Hc').
      exists s'. split; [|lia].
      simpl. unfold bind at 1. by rewrite H1.
Qed.

Lemma interval_timers_accumulate_witness :
  (V1.observeChanges chatPage1 =
     Ok tt (with_observers (observers chatPage1 ++ [bodyObserver 2]) chatPage1)
   ∧ ∀ n : nat,
       intervalCount
         (batches V1.run (length (observers chatPage1)) n
            (settle (V1.observeChanges chatPage1))) =
       intervalCount chatPage1 + n)
  ∧ (intervalCount (step V1.run started1 (MutationBatch 0)) =
       S (intervalCount started1)
     ∧ observers (step V1.run started1 (MutationBatch 0)) =
         observers started1
     ∧ ∀ n : nat,
         intervalCount (batches V1.run 0 n started1) =
         intervalCount started1 + n).
Proof.
  split.
  - apply (proj1 (proj2 (proj2 interval_timers_accumulate)) chatPage1 2).
    reflexivity.
  - apply (proj1 (proj2 (proj2 (proj2 interval_timers_accumulate)))
             started1 0 (bodyObserver 2)); reflexivity.
Defined.

(** ** The document under allocation and insertion *)

Section Documents.
Context {Closure : Type}.
Implicit Types (p : Element Closure → bool) (h : NodeId → Element Closure)
  (d : list (nat * NodeId)).

Lemma firstMatch_agree p h h' d :
  Forall (λ dn, p (h' dn.2) = p (h dn.2)) d →
  firstMatch p h' d = firstMatch p h d.
Proof.
  unfold firstMatch. induction 1 as [|[k m] l Hx _ IH]; simpl in *; [done|].
  rewrite Hx. destruct (p (h m)); [done|exact IH].
Qed.

Lemma firstChild_agree p h h' d :
  Forall (λ dn, p (h' dn.2) = p (h dn.2)) d →
  firstChild p h' d = firstChild p h d.
Proof.
  unfold firstChild. induction 1 as [|[k m] l Hx _ IH]; simpl in *; [done|].
  rewrite Hx. destruct (_ && _); [done|exact IH].
Qed.

Lemma countIn_agree p h h' d :
  Forall (λ dn, p (h' dn.2) = p (h dn.2)) d →
  countIn p h' d = countIn p h d.
Proof.
  unfold countIn. induction 1 as [|[k m] l Hx _ IH]; simpl in *; [done|].
  rewrite Hx. destruct (p (h m)); simpl; by rewrite IH.
Qed.

Lemma countIn_app p h d1 d2 :
  countIn p h (d1 ++ d2) = countIn p h d1 + countIn p h d2.
Proof. unfold countIn. by rewrite List.filter_app, length_app. Qed.

Lemma countIn_cons p h dn d :
  countIn p h (dn :: d) = (if p (h dn.2) then 1 else 0) + countIn p h d.
Proof. unfold countIn. simpl. by destruct (p (h dn.2)). Qed.

Lemma firstMatch_None_count p h d :
  firstMatch p h d = None ↔ countIn p h d = 0.
Proof.
  unfold firstMatch, countIn. induction d as [|[k m] l IH]; simpl; [done|].
  destruct (p (h m)); simpl; [split; discriminate|exact IH].
Qed.

Lemma firstMatch_split p h d a :
  firstMatch p h d = Some a →
  ∃ pre k post, splitAt a d = Some (pre, k, post) ∧ d = pre ++ (k, a) :: post.
Proof.
  unfold firstMatch. induction d as [|[k m] l IH]; simpl; [discriminate|].
  unfold splitAt; fold splitAt.
  destruct (p (h m)) eqn:Hp; simpl.
  - intros [= ->]. rewrite Nat.eqb_refl. by exists [], k, l.
  - intros Hl. destruct (Nat.eqb_spec m a) as [->|Hne].
    + by exists [], k, l.
    + destruct (IH Hl) as (pre & k' & post & Hs & ->).
      rewrite Hs. by exists ((k, m) :: pre), k', post.
Qed.

Lemma firstChild_split p h d a :
  firstChild p h d = Some a →
  ∃ pre k post, splitAt a d = Some (pre, k, post) ∧ d = pre ++ (k, a) :: post.
Proof.
  unfold firstChild. induction d as [|[k m] l IH]; simpl; [discriminate|].
  unfold splitAt; fold splitAt.
  destruct (_ && _) eqn:Hp; simpl.
  - intros [= ->]. rewrite Nat.eqb_refl. by exists [], k, l.
  - intros Hl. destruct (Nat.eqb_spec m a) as [->|Hne].
    + by exists [], k, l.
    + destruct (IH Hl) as (pre & k' & post & Hs & ->).
      rewrite Hs. by exists ((k, m) :: pre), k', post.
Qed.

Lemma rendered_agree (s s' : State Closure) :
  doc s' = doc s → Forall (λ dn, heap s' dn.2 = heap s dn.2) (doc s) →
  rendered s' = rendered s.
Proof.
  unfold rendered. intros -> Hag. revert Hag.
  induction (doc s) as [|dn l IH]; intros Hag; simpl; [done|].
  inversion Hag as [|? ? Hx Hl]; subst. rewrite Hx. f_equal. by apply IH.
Qed.

Lemma bind_Ok {A B} (m : M Closure A) (k : A → M Closure B)
    (s s' : State Closure) (a : A) :
  m s = Ok a s' → bind m k s = k a s'.
Proof. intros H. unfold bind. by rewrite H. Qed.

(** Objects allocated from [n] on are not in a document whose elements lie
    below [n]. *)
Lemma wf_agree {B} (n : NodeId) (f : Element Closure → B) h h' d :
  Forall (λ dn, dn.2 < n) d → (∀ m, m < n → h' m = h m) →
  Forall (λ dn, f (h' dn.2) = f (h dn.2)) d.
Proof.
  intros Hwf Hag. induction Hwf as [|dn l Hx _ IH]; constructor; [|exact IH].
  by rewrite Hag.
Qed.

Lemma filter_cons_true {A} (f : A → bool) (x : A) (l : list A) :
  f x = true → List.filter f (x :: l) = x :: List.filter f l.
Proof. intros H. simpl. by rewrite H. Qed.

Lemma filter_cons_false {A} (f : A → bool) (x : A) (l : list A) :
  f x = false → List.filter f (x :: l) = List.filter f l.
Proof. intros H. simpl. by rewrite H. Qed.

End Documents.

Ltac heap_lookup :=
  repeat first [rewrite fn_lookup_insert | rewrite fn_lookup_insert_ne by lia].

(** Call-by-value execution of a script on a state given field by field. *)
Ltac exec :=
  cbv beta iota zeta delta
    [bind ret gets modify throw when andThen
     getProp setProp deref focus blur select click dispatchEvent consoleLog
     emit setTimeout setInterval addKeydownListener addReadyListener observe
     querySelector getElementById querySelectorAllIn documentHead documentBody
     documentElement createElement alloc insertAdjacentElement
     appendChild findFirst isAttached countWithId
     with_heap with_next with_doc with_activeElement with_loading with_timers
     with_keydownListeners with_readyListeners with_observers with_trace
     heap next doc activeElement loading timers keydownListeners
     readyListeners observers trace nonNull negb].

Ltac exec_loops := cbv beta iota zeta delta [parseInto forEach times]; exec.

Lemma V1_addQuickActions_inserts (s : State V1.Closure) (a : NodeId) :
  wf s →
  findFirst (hasId "quick-actions") s = None →
  findFirst (matchesAny V1.messagesSel) s = Some a →
  ∃ pre k post hF,
    V1.addQuickActions s =
      Ok tt (pageOver s hF (16 + next s)
               (pre ++ (k, a) :: shift (S k) (panelTree (next s)) ++ post))
    ∧ doc s = pre ++ (k, a) :: post
    ∧ (∀ m, m < next s → hF m = heap s m)
    ∧ elemId (hF (next s)) = "quick-actions"
    ∧ (∀ i, 1 ≤ i < 16 → elemId (hF (i + next s)) ≠ "quick-actions")
    ∧ (∀ i entry, V1.catalog !! i = Some entry →
         dataset (hF (4 + 3 * i + next s)) !! "query" = Some entry.2
         ∧ onclick (hF (4 + 3 * i + next s)) = None
         ∧ clickListeners (hF (4 + 3 * i + next s)) =
             [V1.QuickActionClick (4 + 3 * i + next s)]).
Proof.
  destruct s as [h nx d act ld tm kd rd ob tr].
  intros Hwf Hp Ha. unfold findFirst, wf, pageOver in *. 
  cbn [heap doc next] in *.
  destruct (firstMatch_split _ _ _ _ Ha) as (pre & k & post & Hs & Hd).
  exists pre, k, post.
  unfold V1.addQuickActions, V1.panelMarkup.
  exec. rewrite Hp. exec_loops.
  match goal with |- context [firstMatch _ ?H d] => set (HA := H) end.
  assert (Hag : ∀ m, m < nx → HA m = h m).
  { intros m Hm. unfold HA. by heap_lookup. }
  rewrite (firstMatch_agree _ h HA d (wf_agree nx _ _ _ _ Hwf Hag)).
  rewrite Ha, Hs. exec. cbn [list.tail].
  repeat first
    [ rewrite filter_cons_false by (cbn [snd]; unfold HA; heap_lookup; reflexivity)
    | rewrite filter_cons_true by (cbn [snd]; unfold HA; heap_lookup; reflexivity) ].
  cbn [List.filter fmap list_fmap snd]. exec_loops.
  eexists. split; [reflexivity|].
  split_and!.
  - done.
  - intros m Hm. unfold HA. by heap_lookup.
  - unfold HA. by heap_lookup.
  - intros i Hi. do 16 (destruct i as [|i]; [try lia; cbn [Nat.add]; unfold HA; heap_lookup; try discriminate|]). lia.
  - intros i entry Hi.
    do 4 (destruct i as [|i]; [injection Hi as <-; cbn [Nat.add Nat.mul]; unfold HA; heap_lookup; split_and!; reflexivity|]).
    done.
Qed.

Lemma placeholderMaintained_elemId {C} (text : string) (s : State C) (n : NodeId) :
  elemId (heap (placeholderMaintained text s) n) = elemId (heap s n)
  ∧ tagName (heap (placeholderMaintained text s) n) = tagName (heap s n).
Proof.
  unfold placeholderMaintained, placeholderApplied.
  destruct (findFirst _ s) as [t|]; [destruct (truthy _)|]; try done.
  simpl. destruct (decide (t = n)) as [->|Hne].
  - by rewrite fn_lookup_insert.
  - by rewrite !fn_lookup_insert_ne.
Qed.

Lemma placeholderMaintained_count {C} (text i : string) (s : State C) :
  countWithId i (placeholderMaintained text s) = countWithId i s.
Proof.
  unfold countWithId.
  rewrite (proj1 (proj2 (placeholderMaintained_frame text s))).
  apply countIn_agree, Forall_forall. intros dn _. unfold hasId.
  by rewrite (proj1 (placeholderMaintained_elemId text s dn.2)).
Qed.

Lemma V2_setPlaceholder_spec (s : State V2.Closure) :
  V2.setPlaceholder s = Ok tt (placeholderMaintained V2.placeholderText s).
Proof.
  unfold V2.setPlaceholder, placeholderMaintained, placeholderApplied.
  unfold V2.textareaSel. step_script.
  destruct (firstMatch _ _ _) as [t|]; simpl; [|done].
  destruct (truthy _); simpl; [done|].
  by rewrite fn_lookup_insert.
Qed.

Lemma V2_updatePlaceholder_spec (s : State V2.Closure) :
  V2.updatePlaceholder s =
  Ok tt (with_timers (timers s ++ [placeholderTimer2])
           (placeholderMaintained V2.placeholderText s)).
Proof.
  unfold V2.updatePlaceholder, bind. rewrite V2_setPlaceholder_spec.
  unfold placeholderMaintained, placeholderApplied. step_script.
  destruct (firstMatch _ _ _) as [t|]; simpl; [|done].
  by destruct (truthy _).
Qed.

Lemma V2_mutationCallback_spec (s : State V2.Closure) :
  V2.mutationCallback s =
  Ok tt (if unmarkedField s
         then with_timers (timers s ++ [placeholderTimer2])
                (placeholderMaintained V2.placeholderText s)
         else s).
Proof.
  unfold V2.mutationCallback, unmarkedField, bind at 1 2.
  unfold querySelector, gets, andThen.
  destruct (findFirst _ s) as [t|] eqn:Ht; simpl; [|done].
  unfold getProp, deref, bind, ret, gets. simpl.
  destruct (truthy _); simpl; [done|].
  apply V2_updatePlaceholder_spec.
Qed.

Lemma countIn_panel {C} (hF : NodeId → Element C) (nx k : NodeId) :
  elemId (hF nx) = "quick-actions" →
  (∀ i, 1 ≤ i < 16 → elemId (hF (i + nx)) ≠ "quick-actions") →
  countIn (hasId "quick-actions") hF (shift k (panelTree nx)) = 1.
Proof.
  intros H0 Hi. unfold shift, panelTree. cbn [fmap list_fmap fst snd].
  rewrite !countIn_cons. cbn [snd]. unfold hasId at 1. rewrite H0.
  assert (Hno : ∀ i, 1 ≤ i < 16 → hasId "quick-actions" (hF (i + nx)) = false).
  { intros i Hr. unfold hasId. apply String.eqb_neq. by apply Hi. }
  rewrite !Hno by lia. reflexivity.
Qed.

Lemma V1_addQuickActions_present (s : State V1.Closure) (q : NodeId) :
  findFirst (hasId "quick-actions") s = Some q →
  V1.addQuickActions s = Ok tt s.
Proof.
  intros Hq. unfold V1.addQuickActions, bind at 1, getElementById, gets.
  by rewrite Hq.
Qed.

Lemma V1_addQuickActions_count (s : State V1.Closure) (a : NodeId) :
  wf s →
  countWithId "quick-actions" s = 0 →
  findFirst (matchesAny V1.messagesSel) s = Some a →
  ∃ s', V1.addQuickActions s = Ok tt s'
    ∧ countWithId "quick-actions" s' = 1
    ∧ timers s' = timers s ∧ trace s' = trace s.
Proof.
  intros Hwf Hc Ha.
  assert (Hp : findFirst (hasId "quick-actions") s = None)
    by by apply firstMatch_None_count.
  destruct (V1_addQuickActions_inserts s a Hwf Hp Ha)
    as (pre & k & post & hF & Hrun & Hd & Hag & Hid & Hno & _).
  eexists. split; [exact Hrun|]. split; [|done].
  unfold countWithId, wf, pageOver, with_heap, with_next, with_doc in *.
  cbn [heap doc].
  rewrite Hd in Hc, Hwf.
  rewrite countIn_app, countIn_cons in Hc. simpl in Hc.
  rewrite countIn_app, countIn_cons, countIn_app. cbn [snd].
  apply Forall_app in Hwf as [Hpre Hpost].
  inversion Hpost as [|? ? Ha' Hpost']; subst. simpl in Ha'.
  rewrite (countIn_agree _ (heap s) hF pre (wf_agree _ _ _ _ _ Hpre Hag)).
  rewrite (countIn_agree _ (heap s) hF post (wf_agree _ _ _ _ _ Hpost' Hag)).
  rewrite (Hag a Ha'), (countIn_panel hF (next s) (S k) Hid Hno). lia.
Qed.

(** ** Self-healing of the quick-action panel *)

(** C1, as the code has it.  First revision: [observeChanges] registers an
    observer on the body that carries the observer callback.  When a
    mutation batch reaches it with no panel in the document, the callback
    leaves the document tree as it is, writes no element object but the
    first [textarea] (which gets the placeholder text and the
    [placeholderSet] marker if it is not marked yet), starts one more
    placeholder interval and queues a 500 ms timeout for [addQuickActions];
    when that timeout comes due on a page without a panel whose messages
    container resolves, exactly one panel is in the document afterwards, and
    when a panel is there already it does nothing.  Second revision: the
    observer is registered on the root element; its callback does the same
    to the first [textarea], starts one interval if that field was unmarked,
    never changes the document tree and queues no timeout, so a removed
    panel stays removed. *)
Theorem self_healing_is_deferred :
  (∀ (s : State V1.Closure) (b : NodeId),
      firstChild isBody (heap s) (doc s) = Some b →
      V1.observeChanges s =
      Ok tt (with_observers (observers s ++ [bodyObserver b]) s))
  ∧ (∀ s : State V1.Closure,
      countWithId "quick-actions" s = 0 →
      ∃ s1, V1.run V1.MutationCallback None s = Ok tt s1
        ∧ (∀ (k : nat) (o : Observer V1.Closure),
             observers s !! k = Some o →
             onMutations o = V1.MutationCallback →
             step V1.run s (MutationBatch k) = s1)
        ∧ doc s1 = doc s
        ∧ (∀ m, heap s1 m =
             if bool_decide (findFirst (matchesAny V1.textareaSel) s = Some m)
                && negb (truthy (dataset (heap s m) !! "placeholderSet"))
             then set_data "placeholderSet" "true"
                    (set_placeholder V1.placeholderText (heap s m))
             else heap s m)
        ∧ countWithId "quick-actions" s1 = 0
        ∧ timers s1 = timers s ++ [placeholderTimer; readdTimer])
  ∧ (∀ (s2 : State V1.Closure) (a : NodeId),
      wf s2 →
      countWithId "quick-actions" s2 = 0 →
      findFirst (matchesAny V1.messagesSel) s2 = Some a →
      (∃ s3, V1.run V1.AddQuickActions None s2 = Ok tt s3
         ∧ countWithId "quick-actions" s3 = 1)
      ∧ ∀ i : nat,
          timers s2 !! i = Some readdTimer →
          countWithId "quick-actions" (step V1.run s2 (TimerDue i)) = 1)
  ∧ (∀ (s2 : State V1.Closure) (q : NodeId),
      findFirst (hasId "quick-actions") s2 = Some q →
      V1.run V1.AddQuickActions None s2 = Ok tt s2
      ∧ ∀ i : nat,
          timers s2 !! i = Some readdTimer →
          step V1.run s2 (TimerDue i) =
          with_timers (delete i (timers s2)) s2)
  ∧ (∀ (s : State V2.Closure) (r : NodeId),
      snd <$> head (doc s) = Some r →
      V2.observeChanges s =
      Ok tt (with_observers (observers s ++ [rootObserver r]) s))
  ∧ (∀ s : State V2.Closure,
      ∃ s1, V2.run V2.MutationCallback None s = Ok tt s1
        ∧ (∀ (k : nat) (o : Observer V2.Closure),
             observers s !! k = Some o →
             onMutations o = V2.MutationCallback →
             step V2.run s (MutationBatch k) = s1)
        ∧ doc s1 = doc s
        ∧ (∀ m, heap s1 m =
             if bool_decide (findFirst (matchesAny V2.textareaSel) s = Some m)
                && negb (truthy (dataset (heap s m) !! "placeholderSet"))
             then set_data "placeholderSet" "true"
                    (set_placeholder V2.placeholderText (heap s m))
             else heap s m)
        ∧ countWithId "quick-actions" s1 = countWithId "quick-actions" s
        ∧ timers s1 =
            timers s ++ (if unmarkedField s then [placeholderTimer2] else [])
        ∧ oneShots s1 = oneShots s).
Proof.
  split_and!.
  - intros s b Hb.
    unfold V1.observeChanges, documentBody, observe, deref, bind, gets,
      modify, ret.
    by rewrite Hb.
  - intros s Hc. eexists. split; [apply V1_mutationCallback_spec|].
    pose proof (placeholderMaintained_count V1.placeholderText "quick-actions" s)
      as Hc'.
    assert (Hnone : findFirst (hasId "quick-actions")
                      (placeholderMaintained V1.placeholderText s) = None).
    { apply firstMatch_None_count. unfold countWithId in Hc, Hc'. lia. }
    rewrite Hnone. simpl.
    destruct (placeholderMaintained_frame V1.placeholderText s)
      as (_ & Hd & _).
    split_and!; [|exact Hd| | |done].
    + intros k o Hk Ho. unfold deliverMutations. rewrite Hk, Ho.
      cbn [V1.run]. rewrite V1_mutationCallback_spec. by rewrite Hnone.
    + intros m. apply placeholderMaintained_heap.
    + unfold countWithId in *. simpl. lia.
  - intros s2 a Hwf Hc Ha. split.
    + destruct (V1_addQuickActions_count s2 a Hwf Hc Ha) as (s3 & ? & ? & _).
      by exists s3.
    + intros i Hi. cbn [step]. unfold fireTimer. rewrite Hi.
      cbn [readdTimer repeating callback V1.run].
      destruct (V1_addQuickActions_count
                  (with_timers (delete i (timers s2)) s2) a Hwf Hc Ha)
        as (s3 & Hrun & Hc3 & _).
      by rewrite Hrun.
  - intros s2 q Hq. split; [by apply (V1_addQuickActions_present s2 q)|].
    intros i Hi. cbn [step]. unfold fireTimer. rewrite Hi.
    cbn [readdTimer repeating callback V1.run].
    by rewrite (V1_addQuickActions_present
                  (with_timers (delete i (timers s2)) s2) q Hq).
  - intros s r Hr.
    unfold V2.observeChanges, documentElement, observe, deref, bind, gets,
      modify, ret.
    by rewrite Hr.
  - intros s. eexists. split; [apply V2_mutationCallback_spec|].
    split.
    { intros k o Hk Ho. cbn [step]. unfold deliverMutations. rewrite Hk, Ho.
      cbn [V2.run]. by rewrite V2_mutationCallback_spec. }
    destruct (unmarkedField s) eqn:Hu.
    + destruct (placeholderMaintained_frame V2.placeholderText s)
        as (_ & Hd & _).
      split_and!.
      * exact Hd.
      * intros m. apply placeholderMaintained_heap.
      * apply (placeholderMaintained_count V2.placeholderText "quick-actions" s).
      * done.
      * unfold oneShots, with_timers. cbn [timers].
        rewrite List.filter_app. simpl. by rewrite app_nil_r.
    + split_and!; try done; [|by rewrite app_nil_r].
      intros m. unfold unmarkedField in Hu.
      case_bool_decide as Hm; [|done]. rewrite Hm in Hu. by rewrite Hu.
Qed.

Lemma self_healing_is_deferred_witness :
  (∃ s1, V1.run V1.MutationCallback None chatPage1 = Ok tt s1
     ∧ (∀ (k : nat) (o : Observer V1.Closure),
          observers chatPage1 !! k = Some o →
          onMutations o = V1.MutationCallback →
          step V1.run chatPage1 (MutationBatch k) = s1)
     ∧ doc s1 = doc chatPage1
     ∧ (∀ m, heap s1 m =
          if bool_decide
               (findFirst (matchesAny V1.textareaSel) chatPage1 = Some m)
             && negb (truthy (dataset (heap chatPage1 m) !! "placeholderSet"))
          then set_data "placeholderSet" "true"
                 (set_placeholder V1.placeholderText (heap chatPage1 m))
          else heap chatPage1 m)
     ∧ countWithId "quick-actions" s1 = 0
     ∧ timers s1 = timers chatPage1 ++ [placeholderTimer; readdTimer])
  ∧ ((∃ s3, V1.run V1.AddQuickActions None chatPage1 = Ok tt s3
        ∧ countWithId "quick-actions" s3 = 1)
     ∧ ∀ i : nat,
         timers chatPage1 !! i = Some readdTimer →
         countWithId "quick-actions" (step V1.run chatPage1 (TimerDue i)) = 1)
  ∧ (V1.run V1.AddQuickActions None
       (settle (V1.addQuickActions chatPage1)) =
     Ok tt (settle (V1.addQuickActions chatPage1))
     ∧ ∀ i : nat,
         timers (settle (V1.addQuickActions chatPage1)) !! i =
           Some readdTimer →
         step V1.run (settle (V1.addQuickActions chatPage1)) (TimerDue i) =
         with_timers
           (delete i (timers (settle (V1.addQuickActions chatPage1))))
           (settle (V1.addQuickActions chatPage1))).
Proof.
  split; [|split].
  - apply (proj1 (proj2 self_healing_is_deferred) chatPage1). reflexivity.
  - apply (proj1 (proj2 (proj2 self_healing_is_deferred)) chatPage1 3).
    + unfold wf. simpl. repeat constructor.
    + reflexivity.
    + reflexivity.
  - apply (proj1 (proj2 (proj2 (proj2 self_healing_is_deferred)))
             (settle (V1.addQuickActions chatPage1)) 6).
    reflexivity.
Defined.

(** C1 as stated fails.  First revision: the panel is there, the host removes
    it, one mutation batch is delivered, and no element has the id.  Second
    revision: the same, and nothing is left that could put the panel back
    (two placeholder intervals are the only timers). *)
Lemma self_healing_counterexample :
  (countWithId "quick-actions" started1 = 1
   ∧ length (observers started1) = 1
   ∧ countWithId "quick-actions" (removeElement 6 started1) = 0
   ∧ countWithId "quick-actions"
       (deliverMutations V1.run 0 (removeElement 6 started1)) = 0)
  ∧ (countWithId "quick-actions" started2 = 1
     ∧ length (observers started2) = 2
     ∧ countWithId "quick-actions" (removeElement 6 started2) = 0
     ∧ countWithId "quick-actions"
         (deliverMutations V2.run 0 (removeElement 6 started2)) = 0
     ∧ timers (deliverMutations V2.run 0 (removeElement 6 started2)) =
         [placeholderTimer2; placeholderTimer2]).
Proof. vm_compute. repeat split. Qed.

(** ** Quick-action buttons *)


Lemma V2_addQuickActions_builds (s : State V2.Closure) :
  findFirst (hasId "quick-actions") s = None →
  ∃ hF,
    V2.addQuickActions s =
      Ok tt (with_timers (timers s ++ [insertTimer (panelTree2 (next s))])
               (pageOver s hF (5 + next s) (doc s)))
    ∧ (∀ m, m < next s → hF m = heap s m)
    ∧ elemId (hF (next s)) = "quick-actions"
    ∧ (∀ i ex, V2.examples !! i = Some ex →
         onclick (hF (1 + i + next s)) = Some (V2.FillInput (V2.query ex))
         ∧ clickListeners (hF (1 + i + next s)) = []).
Proof.
  destruct s as [h nx d act ld tm kd rd ob tr].
  intros Hp. unfold findFirst, pageOver, insertTimer, panelTree2 in *.
  cbn [heap doc next] in *.
  unfold V2.addQuickActions, V2.examples.
  exec. rewrite Hp.
  cbv beta iota zeta delta [V2.makeButtons V2.emoji V2.text V2.query]. exec.
  eexists. split; [reflexivity|].
  split_and!.
  - intros m Hm. by heap_lookup.
  - by heap_lookup.
  - intros i ex Hi.
    do 4 (destruct i as [|i];
          [injection Hi as <-; cbn [Nat.add]; heap_lookup; by split|]).
    done.
Qed.






(** ** Injector idempotence *)

(** The first revision inserts synchronously, so its guard works: two calls
    in succession on a page without panel, whose messages container
    resolves, leave exactly one panel. *)
Lemma V1_injector_idempotent (s : State V1.Closure) (a : NodeId) :
  wf s →
  countWithId "quick-actions" s = 0 →
  findFirst (matchesAny V1.messagesSel) s = Some a →
  ∃ s', (V1.addQuickActions >> V1.addQuickActions) s = Ok tt s'
    ∧ countWithId "quick-actions" s' = 1.
Proof.
  intros Hwf Hc Ha.
  destruct (V1_addQuickActions_count s a Hwf Hc Ha) as (s1 & Hrun & Hc1 & _).
  exists s1. split; [|done].
  rewrite (bind_Ok _ _ _ _ _ Hrun).
  destruct (findFirst (hasId "quick-actions") s1) as [q|] eqn:Hq.
  - by apply (V1_addQuickActions_present s1 q).
  - apply firstMatch_None_count in Hq. unfold countWithId in Hc1. lia.
Qed.

(** C3 fails in the second revision, which inserts from a 1000 ms timeout:
    two calls in succession both pass the guard, each builds a container and
    queues its insertion, and once both timeouts have run the document holds
    two elements with the id.  The page's own start-up gets there: loaded
    while the document is still loading, it runs [onReady] on
    DOMContentLoaded and again from its 1000 ms timeout, which comes due
    before the first run's insertion does. *)
Theorem V2_injector_duplicates :
  (let s0 := chatPage2 sendButton in
   let s2 := settle (V2.addQuickActions (settle (V2.addQuickActions s0))) in
   countWithId "quick-actions" s0 = 0
   ∧ timers s2 = [insertTimer (panelTree2 6); insertTimer (panelTree2 11)]
   ∧ countWithId "quick-actions" s2 = 0
   ∧ countWithId "quick-actions" (fireTimer V2.run 0 (fireTimer V2.run 0 s2)) = 2)
  ∧ (let s0 := with_loading true (chatPage2 sendButton) in
     let s1 := domContentLoaded V2.run (settle (V2.main s0)) in
     let s2 := fireTimer V2.run 0 (fireTimer V2.run 2 s1) in
     let s3 := fireTimer V2.run 2 (fireTimer V2.run 1 s2) in
     let s4 := fireTimer V2.run 2 s3 in
     callback <$> timers s1 =
       [V2.OnReady; V2.SetPlaceholder; V2.FocusTask;
        V2.InsertPanel (panelTree2 6)]
     ∧ callback <$> timers s2 =
         [V2.SetPlaceholder; V2.InsertPanel (panelTree2 6);
          V2.SetPlaceholder; V2.FocusTask; V2.InsertPanel (panelTree2 12)]
     ∧ countWithId "quick-actions" s3 = 1
     ∧ oneShots s4 = []
     ∧ countWithId "quick-actions" s4 = 2).
Proof. vm_compute. repeat split. Qed.

(** ** Absent targets *)

Lemma V1_addQuickActions_no_anchor (s : State V1.Closure) :
  wf s →
  findFirst (hasId "quick-actions") s = None →
  findFirst (matchesAny V1.messagesSel) s = None →
  ∃ hF,
    V1.addQuickActions s = Ok tt (pageOver s hF (16 + next s) (doc s))
    ∧ ∀ m, m < next s → hF m = heap s m.
Proof.
  destruct s as [h nx d act ld tm kd rd ob tr].
  intros Hwf Hp Ha. unfold findFirst, wf, pageOver in *.
  cbn [heap doc next] in *.
  unfold V1.addQuickActions, V1.panelMarkup.
  exec. rewrite Hp. exec_loops.
  match goal with |- context [firstMatch _ ?H d] => set (HA := H) end.
  assert (Hag : ∀ m, m < nx → HA m = h m).
  { intros m Hm. unfold HA. by heap_lookup. }
  rewrite (firstMatch_agree _ h HA d (wf_agree nx _ _ _ _ Hwf Hag)).
  rewrite Ha. exec. by exists HA.
Qed.

(** C9. Each operation, run while its target is not in the document, returns
    normally and leaves the elements of the document, their order and their
    objects as they were: the focus manager (both its call and its deferred
    task), the message dispatcher, the injector of either revision (the first
    builds a detached container and drops it, the second's deferred insertion
    finds no composer), and the placeholder maintainer (both its call, which
    only starts one more interval, and the interval's tick). *)
Theorem absent_target_is_noop :
  (∀ s : State V1.Closure,
      findFirst (matchesAny V1.textareaSel) s = None →
      (∃ s', V1.focusInput s = Ok tt s' ∧ rendered s' = rendered s)
      ∧ V1.run V1.FocusTask None s = Ok tt s)
  ∧ (∀ (s : State V1.Closure) (text : string),
      findFirst (matchesAny V1.textareaSel) s = None →
      V1.sendMessage text s = Ok tt s)
  ∧ (∀ s : State V1.Closure,
      wf s →
      findFirst (matchesAny V1.messagesSel) s = None →
      ∃ s', V1.addQuickActions s = Ok tt s'
        ∧ rendered s' = rendered s
        ∧ timers s' = timers s
        ∧ trace s' = trace s)
  ∧ (∀ (s : State V2.Closure) (panel : list (nat * NodeId)),
      findFirst (matchesAny V2.composerSel) s = None →
      V2.run (V2.InsertPanel panel) None s = Ok tt s)
  ∧ (∀ s : State V1.Closure,
      findFirst (matchesAny V1.textareaSel) s = None →
      (∃ s', V1.updatePlaceholder s = Ok tt s' ∧ rendered s' = rendered s)
      ∧ V1.run V1.SetPlaceholder None s = Ok tt s).
Proof.
  split_and!.
  - intros s Ht. split.
    + by eexists.
    + simpl. unfold V1.focusTask, bind, querySelector, gets. by rewrite Ht.
  - intros s text Ht.
    unfold V1.sendMessage, bind, querySelector, gets. by rewrite Ht.
  - intros s Hwf Ha.
    destruct (findFirst (hasId "quick-actions") s) as [q|] eqn:Hq.
    + exists s. split; [|done]. by apply (V1_addQuickActions_present s q).
    + destruct (V1_addQuickActions_no_anchor s Hwf Hq Ha) as (hF & Hrun & Hag).
      eexists. split; [exact Hrun|]. split; [|done].
      apply rendered_agree; [done|].
      apply (wf_agree (next s) (λ e, e)); [exact Hwf|exact Hag].
  - intros s panel Hc. simpl.
    unfold V2.insertPanel, bind, querySelector, gets. by rewrite Hc.
  - intros s Ht. unfold V1.textareaSel in Ht. split.
    + eexists. split; [apply V1_updatePlaceholder_spec|].
      unfold placeholderMaintained. by rewrite Ht.
    + simpl. rewrite V1_setPlaceholder_spec.
      unfold placeholderMaintained. by rewrite Ht.
Qed.

Lemma absent_target_is_noop_witness :
  ((∃ s', V1.focusInput barePage1 = Ok tt s' ∧ rendered s' = rendered barePage1)
   ∧ V1.run V1.FocusTask None barePage1 = Ok tt barePage1)
  ∧ V1.sendMessage "DAM yesterday" barePage1 = Ok tt barePage1
  ∧ (∃ s', V1.addQuickActions barePage1 = Ok tt s'
       ∧ rendered s' = rendered barePage1
       ∧ timers s' = timers barePage1
       ∧ trace s' = trace barePage1)
  ∧ V2.run (V2.InsertPanel (panelTree2 3)) None barePage2 = Ok tt barePage2
  ∧ ((∃ s', V1.updatePlaceholder barePage1 = Ok tt s'
        ∧ rendered s' = rendered barePage1)
     ∧ V1.run V1.SetPlaceholder None barePage1 = Ok tt barePage1).
Proof.
  split_and!.
  - apply (proj1 absent_target_is_noop barePage1). reflexivity.
  - apply (proj1 absent_target_is_noop barePage1). reflexivity.
  - apply (proj1 (proj2 absent_target_is_noop) barePage1). reflexivity.
  - apply (proj1 (proj2 (proj2 absent_target_is_noop)) barePage1).
    + unfold wf. simpl. repeat constructor.
    + reflexivity.
  - apply (proj1 (proj2 (proj2 (proj2 absent_target_is_noop))) barePage2).
    reflexivity.
  - apply (proj2 (proj2 (proj2 (proj2 absent_target_is_noop))) barePage1).
    reflexivity.
  - apply (proj2 (proj2 (proj2 (proj2 absent_target_is_noop))) barePage1).
    reflexivity.
Defined.

(** ** Initialisation (second revision) *)

Lemma V2_addQuickActions_frame (s : State V2.Closure) :
  ∃ s', V2.addQuickActions s = Ok tt s'
    ∧ doc s' = doc s
    ∧ keydownListeners s' = keydownListeners s
    ∧ observers s' = observers s
    ∧ next s ≤ next s'
    ∧ ∀ m, m < next s → heap s' m = heap s m.
Proof.
  destruct (findFirst (hasId "quick-actions") s) as [q|] eqn:Hq.
  - exists s. split_and!; try done.
    unfold V2.addQuickActions, bind at 1, getElementById, gets. by rewrite Hq.
  - destruct (V2_addQuickActions_builds s Hq) as (hF & Hrun & Hag & _).
    eexists. split; [exact Hrun|]. split_and!; try done. simpl. lia.
Qed.

Lemma V2_addWelcomeAnimation_frame (s : State V2.Closure) (hd : NodeId) :
  wf s →
  firstChild isHead (heap s) (doc s) = Some hd →
  ∃ s', V2.addWelcomeAnimation s = Ok tt s'
    ∧ keydownListeners s' = keydownListeners s
    ∧ observers s' = observers s
    ∧ head (doc s') = head (doc s).
Proof.
  destruct s as [h nx d act ld tm kd rd ob tr].
  intros Hwf Hhd. unfold wf in *. cbn [heap doc next] in *.
  unfold V2.addWelcomeAnimation. exec.
  rewrite (firstChild_agree _ h (<[nx := blank "style"]> h) d).
  2:{ apply (wf_agree nx); [exact Hwf|]. intros m Hm. by heap_lookup. }
  rewrite Hhd.
  destruct (firstChild_split _ _ _ _ Hhd) as (pre & k & post & Hs & Hd).
  rewrite Hs. eexists. split; [reflexivity|]. split_and!; try done.
  cbn [doc]. rewrite Hd. by destruct pre.
Qed.

Lemma head_tag_maintained (text : string) (s : State V2.Closure) :
  firstChild isHead (heap (placeholderMaintained text s))
    (doc (placeholderMaintained text s)) =
  firstChild isHead (heap s) (doc s).
Proof.
  destruct (placeholderMaintained_frame text s) as (_ & -> & _).
  apply firstChild_agree, Forall_forall. intros dn _. unfold isHead.
  by rewrite (proj2 (placeholderMaintained_elemId text s dn.2)).
Qed.

Lemma V2_onReady_registers (s : State V2.Closure) (hd : NodeId) :
  wf s →
  firstChild isHead (heap s) (doc s) = Some hd →
  ∃ s' r, V2.onReady s = Ok tt s'
    ∧ head (doc s) = Some r
    ∧ keydownListeners s' = keydownListeners s ++ [V2.KeydownHandler]
    ∧ observers s' = observers s ++ [rootObserver r.2].
Proof.
  intros Hwf Hhd.
  unfold V2.onReady.
  (* console.log *)
  unfold consoleLog, emit, modify, bind at 1.
  set (sa := with_trace _ s).
  (* updatePlaceholder *)
  rewrite (bind_Ok _ _ _ _ _ (V2_updatePlaceholder_spec sa)).
  set (sb := with_timers _ _).
  assert (Hdb : doc sb = doc s)
    by apply (placeholderMaintained_frame V2.placeholderText sa).
  assert (Hnb : next sb = next s)
    by apply (placeholderMaintained_frame V2.placeholderText sa).
  assert (Hkb : keydownListeners sb = keydownListeners s)
    by apply (placeholderMaintained_frame V2.placeholderText sa).
  assert (Hob : observers sb = observers s)
    by apply (placeholderMaintained_frame V2.placeholderText sa).
  assert (Hhb : firstChild isHead (heap sb) (doc sb) = Some hd).
  { unfold sb, with_timers. cbn [heap doc].
    by rewrite (head_tag_maintained V2.placeholderText sa). }
  (* focusInput *)
  unfold V2.focusInput, setTimeout, modify, bind at 1.
  set (sc := with_timers _ sb).
  (* addQuickActions *)
  destruct (V2_addQuickActions_frame sc)
    as (sd & Hrun & Hdd & Hkd & Hod & Hnd & Hhd').
  rewrite (bind_Ok _ _ _ _ _ Hrun).
  (* setupKeyboardShortcuts *)
  unfold V2.setupKeyboardShortcuts, addKeydownListener, modify, bind at 1.
  set (se := with_keydownListeners _ sd).
  assert (Hwfe : wf se).
  { unfold wf, se, with_keydownListeners. cbn [doc next].
    rewrite Hdd. unfold sc, with_timers. cbn [doc]. rewrite Hdb.
    eapply Forall_impl; [|exact Hwf]. intros dn Hlt. simpl in Hlt.
    unfold sc, with_timers in Hnd. cbn [next] in Hnd. lia. }
  assert (Hhe : firstChild isHead (heap se) (doc se) = Some hd).
  { unfold se, with_keydownListeners. cbn [heap doc]. rewrite Hdd.
    unfold sc, with_timers. cbn [doc]. rewrite <- Hhb.
    apply firstChild_agree.
    apply (wf_agree (next sb)); [rewrite Hdb, Hnb; exact Hwf|].
    intros m Hm. apply Hhd'. exact Hm. }
  (* addWelcomeAnimation *)
  destruct (V2_addWelcomeAnimation_frame se hd Hwfe Hhe)
    as (sf & Hrunf & Hkf & Hof & Hheadf).
  rewrite (bind_Ok _ _ _ _ _ Hrunf).
  (* observeChanges *)
  assert (Hroot : ∃ r, head (doc s) = Some r).
  { unfold firstChild in Hhd. destruct (doc s) as [|r l]; [done|by exists r]. }
  destruct Hroot as [r Hr].
  assert (Hheadf' : head (doc sf) = Some r).
  { rewrite Hheadf. unfold se, with_keydownListeners. cbn [doc].
    rewrite Hdd. unfold sc, with_timers. cbn [doc]. by rewrite Hdb. }
  unfold V2.observeChanges, documentElement, gets, bind at 1.
  rewrite Hheadf'. cbn [fmap option_fmap option_map].
  unfold observe, deref, ret, modify, bind.
  eexists _, r. split; [reflexivity|]. split; [done|].
  unfold with_observers. cbn [keydownListeners observers].
  rewrite Hkf, Hof. unfold se, with_keydownListeners.
  cbn [keydownListeners observers]. rewrite Hkd, Hod.
  unfold sc, with_timers. cbn [keydownListeners observers].
  by rewrite Hkb, Hob.
Qed.

(** C2, as the code has it.  Nothing guards initialisation.
    [setupKeyboardShortcuts] appends a keydown listener whatever is already
    registered; on a page whose head resolves, every run of [onReady] returns
    normally with one more keydown listener and one more observer on the
    root element; and the script arranges two runs of [onReady]: while the
    document is loading, one on DOMContentLoaded and one from a 1000 ms
    timeout, otherwise one at once and one from the timeout. *)
Theorem initialisation_is_not_guarded :
  (∀ s : State V2.Closure,
      V2.setupKeyboardShortcuts s =
      Ok tt (with_keydownListeners
               (keydownListeners s ++ [V2.KeydownHandler]) s))
  ∧ (∀ (s : State V2.Closure) (hd : NodeId),
      wf s →
      firstChild isHead (heap s) (doc s) = Some hd →
      ∃ s' r, V2.run V2.OnReady None s = Ok tt s'
        ∧ head (doc s) = Some r
        ∧ keydownListeners s' = keydownListeners s ++ [V2.KeydownHandler]
        ∧ observers s' = observers s ++ [rootObserver r.2])
  ∧ (∀ s : State V2.Closure,
      loading s = true →
      V2.main s =
      Ok tt (with_timers (timers s ++ [readyTimer])
               (with_readyListeners (readyListeners s ++ [V2.OnReady]) s)))
  ∧ (∀ s : State V2.Closure,
      loading s = false →
      V2.main s = (V2.onReady >> setTimeout V2.OnReady 1000) s).
Proof.
  split_and!.
  - done.
  - intros s hd Hwf Hhd. apply (V2_onReady_registers s hd Hwf Hhd).
  - intros s Hl. unfold V2.main, bind at 1, gets. rewrite Hl. reflexivity.
  - intros s Hl. unfold V2.main, bind at 1, gets. rewrite Hl. reflexivity.
Qed.

Lemma initialisation_is_not_guarded_witness :
  (∃ s' r, V2.run V2.OnReady None (chatPage2 sendButton) = Ok tt s'
     ∧ head (doc (chatPage2 sendButton)) = Some r
     ∧ keydownListeners s' =
         keydownListeners (chatPage2 sendButton) ++ [V2.KeydownHandler]
     ∧ observers s' = observers (chatPage2 sendButton) ++ [rootObserver r.2])
  ∧ V2.main (with_loading true (chatPage2 sendButton)) =
      Ok tt (with_timers
               (timers (with_loading true (chatPage2 sendButton)) ++ [readyTimer])
               (with_readyListeners
                  (readyListeners (with_loading true (chatPage2 sendButton))
                   ++ [V2.OnReady])
                  (with_loading true (chatPage2 sendButton))))
  ∧ V2.main (chatPage2 sendButton) =
      (V2.onReady >> setTimeout V2.OnReady 1000) (chatPage2 sendButton).
Proof.
  split_and!.
  - apply (proj1 (proj2 initialisation_is_not_guarded) (chatPage2 sendButton) 1).
    + unfold wf. simpl. repeat constructor.
    + reflexivity.
  - apply (proj1 (proj2 (proj2 initialisation_is_not_guarded))
             (with_loading true (chatPage2 sendButton))).
    reflexivity.
  - apply (proj2 (proj2 (proj2 initialisation_is_not_guarded))
             (chatPage2 sendButton)).
    reflexivity.
Defined.

(** C2 as stated fails: after start-up the page has two keydown listeners
    and two mutation observers, whether the script ran on a complete
    document ([started2]) or on a loading one. *)
Lemma initialisation_counterexample :
  (length (keydownListeners started2) = 2
   ∧ observers started2 = [rootObserver 0; rootObserver 0])
  ∧ (let s0 := with_loading true (chatPage2 sendButton) in
     let s1 := domContentLoaded V2.run (settle (V2.main s0)) in
     let s2 := fireTimer V2.run 0 s1 in
     keydownListeners s2 = [V2.KeydownHandler; V2.KeydownHandler]
     ∧ observers s2 = [rootObserver 0; rootObserver 0]).
Proof. vm_compute. repeat split. Qed.

(** * Further properties of the two revisions *)

(** ** Keyboard shortcuts *)

(** X1. Escape (first revision, lines 181-188): when no [textarea] is in the
    document, or the active element is not the first [textarea], the handler
    returns with the page untouched; when the first [textarea] is the active
    element, its value becomes the empty string, [blur()] is called on it,
    nothing is focused any more, and no other object, the document tree and
    the timers are as before. *)
Theorem escape_clears_only_the_focused_input (s : State V1.Closure)
    (e : KeyEvent) :
  key e = "Escape" →
  (findFirst (matchesAny V1.textareaSel) s = None
   ∨ activeElement s ≠ findFirst (matchesAny V1.textareaSel) s →
   V1.keydownHandler (Some e) s = Ok tt s)
  ∧ (∀ t, findFirst (matchesAny V1.textareaSel) s = Some t →
       activeElement s = Some t →
       ∃ s', V1.keydownHandler (Some e) s = Ok tt s'
         ∧ value (heap s' t) = ""
         ∧ activeElement s' = None
         ∧ trace s' = trace s ++ [Blur t]
         ∧ (∀ m, m ≠ t → heap s' m = heap s m)
         ∧ doc s' = doc s
         ∧ timers s' = timers s).
Proof.
  intros Hkey.
  assert (Hk : (metaKey e || ctrlKey e) && String.eqb (key e) "k" = false)
    by (rewrite Hkey; apply andb_false_r).
  split.
  - intros Hno. unfold V1.keydownHandler. step_script.
    rewrite Hk, Hkey. simpl.
    destruct (firstMatch _ _ _) as [t|] eqn:Ht; simpl; [|done].
    destruct Hno as [Hno|Hno]; [done|].
    rewrite bool_decide_eq_false_2 by exact Hno. done.
  - intros t Ht Hact. unfold V1.keydownHandler. step_script.
    rewrite Hk, Hkey. simpl. rewrite Ht. simpl.
    rewrite bool_decide_eq_true_2 by exact Hact. simpl.
    rewrite decide_True by exact Hact.
    eexists. split; [reflexivity|]. simpl.
    rewrite fn_lookup_insert. split_and!; try done.
    intros m Hm. by rewrite fn_lookup_insert_ne.
Qed.

Lemma escape_clears_only_the_focused_input_witness :
  V1.keydownHandler (Some (escapeKey false false)) chatPage1 = Ok tt chatPage1
  ∧ (∃ s', V1.keydownHandler (Some (escapeKey false false)) focusedPage = Ok tt s'
       ∧ value (heap s' 4) = ""
       ∧ activeElement s' = None
       ∧ trace s' = trace focusedPage ++ [Blur 4]
       ∧ (∀ m, m ≠ 4 → heap s' m = heap focusedPage m)
       ∧ doc s' = doc focusedPage
       ∧ timers s' = timers focusedPage).
Proof.
  split.
  - apply (proj1 (escape_clears_only_the_focused_input chatPage1
                    (escapeKey false false) eq_refl)).
    right. discriminate.
  - apply (proj2 (escape_clears_only_the_focused_input focusedPage
                    (escapeKey false false) eq_refl) 4); reflexivity.
Defined.

(** X2. Keys that are no shortcut do nothing, in either revision: the
    handler returns normally and the page, its trace included, is exactly as
    before (no [preventDefault()], no focus change, no click). *)
Theorem other_keys_are_ignored (e : KeyEvent) :
  (metaKey e || ctrlKey e = false ∨ key e ≠ "k" →
   key e ≠ "Escape" →
   ∀ s : State V1.Closure, V1.keydownHandler (Some e) s = Ok tt s)
  ∧ (metaKey e || ctrlKey e = false ∨ (key e ≠ "k" ∧ key e ≠ "Enter") →
     ∀ s : State V2.Closure, V2.keydownHandler (Some e) s = Ok tt s).
Proof.
  split.
  - intros Hk Hesc s. unfold V1.keydownHandler. step_script.
    assert (H1 : (metaKey e || ctrlKey e) && String.eqb (key e) "k" = false).
    { destruct Hk as [->|Hk]; [done|].
      apply String.eqb_neq in Hk. rewrite Hk. apply andb_false_r. }
    apply String.eqb_neq in Hesc. by rewrite H1, Hesc.
  - intros Hk s. unfold V2.keydownHandler. step_script.
    destruct Hk as [->|[Hk He]]; [done|].
    apply String.eqb_neq in Hk, He. rewrite Hk, He.
    by rewrite !andb_false_r.
Qed.

Lemma other_keys_are_ignored_witness :
  (∀ s : State V1.Closure,
     V1.keydownHandler
       (Some {| metaKey := true; ctrlKey := false; key := "Enter" |}) s = Ok tt s)
  ∧ (∀ s : State V2.Closure,
       V2.keydownHandler
         (Some {| metaKey := false; ctrlKey := false; key := "Enter" |}) s =
       Ok tt s).
Proof.
  split.
  - apply (proj1 (other_keys_are_ignored
                    {| metaKey := true; ctrlKey := false; key := "Enter" |})).
    + right. discriminate.
    + discriminate.
  - apply (proj2 (other_keys_are_ignored
                    {| metaKey := false; ctrlKey := false; key := "Enter" |})).
    left. reflexivity.
Defined.

(** ** Message dispatcher: the remaining cases *)

(** What [sendMessage] does to a page, case by case. *)
Lemma V1_sendMessage_spec (text : string) (s : State V1.Closure) :
  V1.sendMessage text s =
  Ok tt (match findFirst (matchesAny V1.textareaSel) s with
         | Some t =>
             with_timers
               (timers s ++
                  [sendTimer (findFirst (matchesAny V1.sendButtonSel) s)])
               ((if focusable (heap s t)
                 then with_activeElement (Some t) else id)
                  (with_trace
                     (trace s ++ [DispatchEvent t "input" true; Focus t])
                     (with_heap (<[t := set_value text (heap s t)]> (heap s))
                        s)))
         | None => s
         end).
Proof.
  unfold V1.sendMessage. step_script.
  destruct (firstMatch (matchesAny V1.textareaSel) _ _) as [t|] eqn:Ht;
    simpl; [|done].
  rewrite giveFocus_attached by exact (firstMatch_attached _ _ _ _ Ht).
  cbn [heap]. rewrite fn_lookup_insert.
  change (focusable (set_value text (heap s t))) with (focusable (heap s t)).
  destruct (focusable (heap s t)); simpl; by rewrite <- app_assoc.
Qed.

(** X3. [sendMessage] with the submit control disabled (first revision,
    lines 225-246): the field's value is set and the timeout holding the
    submit control is queued as usual, and when the timeout comes due with
    the control still disabled it clicks nothing and is gone, leaving the
    page otherwise exactly as it found it: nothing is retried. *)
Theorem sendMessage_with_disabled_submit (s : State V1.Closure)
    (text : string) (t b : NodeId) :
  findFirst (matchesAny V1.textareaSel) s = Some t →
  findFirst (matchesAny V1.sendButtonSel) s = Some b →
  disabled (heap s b) = true →
  ∃ s1, V1.sendMessage text s = Ok tt s1
    ∧ value (heap s1 t) = text
    ∧ timers s1 = timers s ++ [sendTimer (Some b)]
    ∧ fireTimer V1.run (length (timers s)) s1 = with_timers (timers s) s1
    ∧ ∀ (s2 : State V1.Closure) (i : nat),
        timers s2 !! i = Some (sendTimer (Some b)) →
        disabled (heap s2 b) = true →
        fireTimer V1.run i s2 = with_timers (delete i (timers s2)) s2.
Proof.
  intros Ht Hb Hdis.
  assert (Hfire : ∀ (s2 : State V1.Closure) (i : nat),
            timers s2 !! i = Some (sendTimer (Some b)) →
            disabled (heap s2 b) = true →
            fireTimer V1.run i s2 = with_timers (delete i (timers s2)) s2).
  { intros s2 i Hi Hd. unfold fireTimer. rewrite Hi. simpl.
    rewrite sendClick_spec. simpl. by rewrite Hd. }
  eexists. split; [apply V1_sendMessage_spec|]. rewrite Ht, Hb.
  assert (Hb' : disabled ((<[t := set_value text (heap s t)]> (heap s)) b)
                = true).
  { destruct (decide (t = b)) as [->|Hne].
    - by rewrite fn_lookup_insert.
    - by rewrite fn_lookup_insert_ne. }
  destruct (focusable (heap s t)).
  all: cbn [id with_timers with_activeElement with_trace with_heap heap timers].
  all: split; [by rewrite fn_lookup_insert|]; split; [done|].
  all: split; [|exact Hfire].
  all: rewrite (Hfire _ (length (timers s)));
    [unfold with_timers; cbn; by rewrite delete_middle, app_nil_r
    |cbn [timers]; by apply list_lookup_middle
    |exact Hb'].
Qed.

Lemma sendMessage_with_disabled_submit_witness :
  ∃ s1, V1.sendMessage "GDAM today" busyPage = Ok tt s1
    ∧ value (heap s1 4) = "GDAM today"
    ∧ timers s1 = timers busyPage ++ [sendTimer (Some 5)]
    ∧ fireTimer V1.run (length (timers busyPage)) s1 =
        with_timers (timers busyPage) s1
    ∧ ∀ (s2 : State V1.Closure) (i : nat),
        timers s2 !! i = Some (sendTimer (Some 5)) →
        disabled (heap s2 5) = true →
        fireTimer V1.run i s2 = with_timers (delete i (timers s2)) s2.
Proof.
  apply (sendMessage_with_disabled_submit busyPage "GDAM today" 4 5);
    reflexivity.
Defined.

(** X4. What [sendMessage] never does (first revision, lines 225-246): for
    every page and text it returns normally; the document tree, the
    listeners, the observers and the repeating timers are as before; no
    object other than the first [textarea] changes, and of that one only the
    value; nothing is clicked during the call; at most one timer is added. *)
Theorem sendMessage_frame (s : State V1.Closure) (text : string) :
  ∃ s', V1.sendMessage text s = Ok tt s'
    ∧ doc s' = doc s
    ∧ keydownListeners s' = keydownListeners s
    ∧ observers s' = observers s
    ∧ intervalCount s' = intervalCount s
    ∧ length (timers s') ≤ S (length (timers s))
    ∧ clickCount (trace s') = clickCount (trace s)
    ∧ ∀ m, heap s' m =
           if bool_decide (findFirst (matchesAny V1.textareaSel) s = Some m)
           then set_value text (heap s m) else heap s m.
Proof.
  eexists. split; [apply V1_sendMessage_spec|].
  destruct (findFirst (matchesAny V1.textareaSel) s) as [t|] eqn:Ht.
  - destruct (focusable (heap s t)); cbn.
    all: split; [done|]; split; [done|]; split; [done|]; split_and!.
    all: try (unfold intervalCount; cbn;
              rewrite List.filter_app, length_app; simpl; lia).
    all: try (rewrite length_app; simpl; lia).
    all: try (unfold clickCount; rewrite !List.filter_app, !length_app;
              simpl; lia).
    all: intros m; case_bool_decide as Hm;
      [injection Hm as <-; by rewrite fn_lookup_insert
      |rewrite fn_lookup_insert_ne; [done|by intros <-]].
  - split_and!; try done; lia.
Qed.

(** ** Placeholder maintainer: the first run *)

(** X5. [setPlaceholder] on an unmarked field (lines 35-41): the first
    [textarea] gets the guidance text as placeholder and a [placeholderSet]
    of 'true'; its value, every other object, the document tree and the
    timers are untouched; and a second run right after changes nothing. *)
Theorem setPlaceholder_marks_once (s : State V1.Closure) (t : NodeId) :
  findFirst (matchesAny V1.textareaSel) s = Some t →
  truthy (dataset (heap s t) !! "placeholderSet") = false →
  ∃ s', V1.setPlaceholder s = Ok tt s'
    ∧ placeholder (heap s' t) = V1.placeholderText
    ∧ dataset (heap s' t) !! "placeholderSet" = Some "true"
    ∧ value (heap s' t) = value (heap s t)
    ∧ (∀ m, m ≠ t → heap s' m = heap s m)
    ∧ doc s' = doc s
    ∧ timers s' = timers s
    ∧ V1.setPlaceholder s' = Ok tt s'.
Proof.
  intros Ht Hm. exists (placeholderApplied V1.placeholderText t s).
  assert (Hrun : V1.setPlaceholder s =
                 Ok tt (placeholderApplied V1.placeholderText t s)).
  { rewrite V1_setPlaceholder_spec. unfold placeholderMaintained.
    unfold V1.textareaSel in Ht. by rewrite Ht, Hm. }
  split; [exact Hrun|].
  unfold placeholderApplied. simpl. rewrite fn_lookup_insert. simpl.
  split_and!; try done.
  - by rewrite lookup_insert_eq.
  - intros m Hne. by rewrite !fn_lookup_insert_ne.
  - apply (setPlaceholder_marked _ t).
    + unfold findFirst. simpl. rewrite <- Ht. unfold findFirst.
      apply firstMatch_agree, Forall_forall. intros dn _.
      destruct (decide (t = dn.2)) as [<-|Hne].
      * by rewrite fn_lookup_insert.
      * by rewrite !fn_lookup_insert_ne.
    + simpl. rewrite fn_lookup_insert. simpl. by rewrite lookup_insert_eq.
Qed.

Lemma setPlaceholder_marks_once_witness :
  ∃ s', V1.setPlaceholder chatPage1 = Ok tt s'
    ∧ placeholder (heap s' 4) = V1.placeholderText
    ∧ dataset (heap s' 4) !! "placeholderSet" = Some "true"
    ∧ value (heap s' 4) = value (heap chatPage1 4)
    ∧ (∀ m, m ≠ 4 → heap s' m = heap chatPage1 m)
    ∧ doc s' = doc chatPage1
    ∧ timers s' = timers chatPage1
    ∧ V1.setPlaceholder s' = Ok tt s'.
Proof. apply (setPlaceholder_marks_once chatPage1 4); reflexivity. Defined.

(** ** Nothing is ever unregistered *)

#[global] Instance le2_preorder : PreOrder le2.
Proof.
  split.
  - intros [a b]. unfold le2. simpl. lia.
  - intros [a b] [c d] [e f]. unfold le2. simpl. lia.
Qed.

Lemma parseInto_along {C X} (R : relation X) `{!PreOrder R}
    (π : State C → X) (markup : list (nat * Element C)) :
  (∀ e, along R π (alloc e)) → along R π (parseInto markup).
Proof.
  intros Hal. induction markup as [|[d e] l IH]; simpl.
  - apply (along_ret R).
  - apply (along_bind R); [apply Hal|]. intros n.
    apply (along_bind R); [exact IH|]. intros ns. apply (along_ret R).
Qed.

Ltac registered_leaf :=
  unfold registered, le2; repeat case_match; simpl;
  rewrite ?length_app; simpl; lia.

Lemma V1_run_registered (c : V1.Closure) (arg : option KeyEvent) :
  along le2 registered (V1.run c arg).
Proof.
  assert (Hupd : along le2 registered V1.updatePlaceholder)
    by (unfold V1.updatePlaceholder, V1.setPlaceholder;
        along_auto registered_leaf).
  assert (Hsend : ∀ q, along le2 registered (V1.sendMessage q))
    by (intros q; unfold V1.sendMessage; along_auto registered_leaf).
  assert (Hadd : along le2 registered V1.addQuickActions).
  { unfold V1.addQuickActions.
    apply (along_bind le2); [along_auto registered_leaf|].
    intros ex. destruct (nonNull ex); [apply (along_ret le2)|].
    apply (along_bind le2); [along_auto registered_leaf|]. intros c0.
    apply (along_bind le2); [along_auto registered_leaf|]. intros _.
    apply (along_bind le2).
    { apply (parseInto_along le2). intros e. along_auto registered_leaf. }
    intros ch. along_auto registered_leaf. }
  destruct c; simpl.
  - unfold V1.setPlaceholder; along_auto registered_leaf.
  - unfold V1.focusTask; along_auto registered_leaf.
  - exact Hadd.
  - unfold V1.quickActionClick.
    apply (along_bind le2); [along_auto registered_leaf|].
    intros q. apply Hsend.
  - unfold V1.sendClick; along_auto registered_leaf.
  - unfold V1.keydownHandler; along_auto registered_leaf.
  - unfold V1.mutationCallback. apply (along_bind le2); [exact Hupd|].
    intros _. along_auto registered_leaf.
  - unfold V1.onReady.
    repeat (apply (along_bind le2); [|intros _]); try done.
    all: unfold V1.focusInput, V1.setupKeyboardShortcuts,
           V1.addWelcomeAnimation, V1.observeChanges;
         along_auto registered_leaf.
Qed.

Lemma makeButtons_along {X} (R : relation X) `{!PreOrder R}
    (π : State V2.Closure → X) (exs : list V2.Example) :
  (∀ e, along R π (alloc e)) →
  (∀ n f, along R π (setProp (Some n) f)) →
  along R π (V2.makeButtons exs).
Proof.
  intros Hal Hset. induction exs as [|ex l IH]; simpl.
  - apply (along_ret R).
  - apply (along_bind R); [apply Hal|]. intros n.
    apply (along_bind R); [apply Hset|]. intros _.
    apply (along_bind R); [apply Hset|]. intros _.
    apply (along_bind R); [exact IH|]. intros ns. apply (along_ret R).
Qed.

(** The closures of the second revision, for an observation that the leaf
    tactic can follow through every state update. *)
Ltac V2_run_along R π leaf :=
  let Hupd := fresh "Hupd" in
  let Hadd := fresh "Hadd" in
  assert (Hupd : along R π V2.updatePlaceholder)
    by (unfold V2.updatePlaceholder, V2.setPlaceholder; along_auto leaf);
  assert (Hadd : along R π V2.addQuickActions);
  [ unfold V2.addQuickActions;
    apply (along_bind R); [along_auto leaf|];
    intros ex; destruct (nonNull ex); [apply (along_ret R)|];
    apply (along_bind R); [along_auto leaf|]; intros c0;
    apply (along_bind R); [along_auto leaf|]; intros _;
    apply (along_bind R);
    [ apply (makeButtons_along R); intros; along_auto leaf
    | intros ch; along_auto leaf ]
  | match goal with
    | |- along _ _ (V2.run ?c _) => destruct c; simpl
    end;
    [ unfold V2.setPlaceholder; along_auto leaf
    | unfold V2.focusTask; along_auto leaf
    | unfold V2.fillInput; along_auto leaf
    | unfold V2.insertPanel; along_auto leaf
    | unfold V2.keydownHandler; along_auto leaf
    | unfold V2.mutationCallback;
      apply (along_bind R); [along_auto leaf|]; intros ?;
      apply (along_bind R); [along_auto leaf|]; intros go;
      destruct go; [exact Hupd|apply (along_ret R)]
    | unfold V2.onReady;
      repeat (apply (along_bind R); [|intros _]); try done;
      unfold V2.focusInput, V2.setupKeyboardShortcuts,
        V2.addWelcomeAnimation, V2.observeChanges;
      along_auto leaf ] ].

Lemma V2_run_registered (c : V2.Closure) (arg : option KeyEvent) :
  along le2 registered (V2.run c arg).
Proof. V2_run_along le2 (@registered V2.Closure) registered_leaf. Qed.

Lemma V2_run_intervals (c : V2.Closure) (arg : option KeyEvent) :
  along le intervalCount (V2.run c arg).
Proof. V2_run_along le (@intervalCount V2.Closure) intervals_leaf. Qed.

Section LoopRegistered.
Context {Closure : Type} (run : Closure → option KeyEvent → M Closure unit).
Hypothesis run_registered : ∀ c arg, along le2 registered (run c arg).

Lemma runAll_registered (cs : list Closure) (arg : option KeyEvent)
    (s : State Closure) :
  le2 (registered s) (registered (runAll run cs arg s)).
Proof.
  revert s. induction cs as [|c cs IH]; intros s; simpl; [done|].
  etrans; [|apply IH]. by apply (along_settle le2).
Qed.

Lemma step_registered (s : State Closure) (ev : Event Closure) :
  le2 (registered s) (registered (step run s ev)).
Proof.
  destruct ev as [i|k|e|n| |h n d a]; simpl.
  - unfold fireTimer. destruct (timers s !! i) as [t|]; [|done].
    destruct (repeating t); [by apply (along_settle le2)|].
    etrans; [|by apply (along_settle le2)]. done.
  - unfold deliverMutations. destruct (observers s !! k); [|done].
    by apply (along_settle le2).
  - apply runAll_registered.
  - apply runAll_registered.
  - unfold domContentLoaded. etrans; [|apply runAll_registered]. done.
  - done.
Qed.

End LoopRegistered.

(** X8. Neither revision ever unregisters anything: whatever happens on the
    page (a timer coming due, a mutation batch, a key, a click on an element,
    the load event, a host re-render), the page has at least as many keydown
    listeners and at least as many mutation observers afterwards as before. *)
Theorem listeners_and_observers_stay :
  (∀ (s : State V1.Closure) (ev : Event V1.Closure),
      length (keydownListeners s) ≤ length (keydownListeners (step V1.run s ev))
      ∧ length (observers s) ≤ length (observers (step V1.run s ev)))
  ∧ (∀ (s : State V2.Closure) (ev : Event V2.Closure),
      length (keydownListeners s) ≤ length (keydownListeners (step V2.run s ev))
      ∧ length (observers s) ≤ length (observers (step V2.run s ev))).
Proof.
  split; intros s ev.
  - apply (step_registered V1.run V1_run_registered s ev).
  - apply (step_registered V2.run V2_run_registered s ev).
Qed.

(** ** Observer callback of the second revision *)

Lemma placeholderMaintained_marks (text : string) (s : State V2.Closure) :
  unmarkedField (placeholderMaintained text s) = false.
Proof.
  unfold unmarkedField, placeholderMaintained, V2.textareaSel.
  destruct (findFirst _ s) as [t|] eqn:Ht.
  - destruct (truthy _) eqn:Hm.
    + by rewrite Ht, Hm.
    + assert (Ht' : findFirst (matchesAny [ByTag "textarea"])
                      (placeholderApplied text t s) = Some t).
      { unfold findFirst, placeholderApplied. simpl. rewrite <- Ht.
        unfold findFirst. apply firstMatch_agree, Forall_forall. intros dn _.
        destruct (decide (t = dn.2)) as [<-|Hne].
        - by rewrite fn_lookup_insert.
        - by rewrite !fn_lookup_insert_ne. }
      rewrite Ht'. unfold placeholderApplied. simpl.
      rewrite fn_lookup_insert. simpl. by rewrite lookup_insert_eq.
  - by rewrite Ht.
Qed.

Lemma V2_mutationCallback_marked (n : nat) (s : State V2.Closure) :
  unmarkedField s = false → times n V2.mutationCallback s = Ok tt s.
Proof.
  intros Hm. induction n as [|n IH]; [done|]. simpl.
  rewrite (bind_Ok _ _ s s tt); [exact IH|].
  rewrite V2_mutationCallback_spec. by rewrite Hm.
Qed.

(** X9. Timers of the second revision (lines 312-322 and 451-458).  No event
    of the page lowers the number of repeating timers: intervals are never
    cleared.  But the observer callback starts the placeholder maintainer
    only for an unmarked field, and the maintainer marks the field: however
    many mutation batches follow one another, they start one interval if the
    field was unmarked and none otherwise. *)
Theorem V2_observer_starts_at_most_one_interval :
  (∀ (s : State V2.Closure) (ev : Event V2.Closure),
      intervalCount s ≤ intervalCount (step V2.run s ev))
  ∧ (∀ (n : nat) (s : State V2.Closure),
      ∃ s', times (S n) V2.mutationCallback s = Ok tt s'
        ∧ intervalCount s' =
            intervalCount s + (if unmarkedField s then 1 else 0)
        ∧ unmarkedField s' = false).
Proof.
  split.
  - intros s ev. apply step_intervals, V2_run_intervals.
  - intros n s. simpl.
    pose proof (V2_mutationCallback_spec s) as Hcb.
    destruct (unmarkedField s) eqn:Hu.
    + eexists. rewrite (bind_Ok _ _ _ _ _ Hcb).
      assert (Hm : unmarkedField
                (with_timers (timers s ++ [placeholderTimer2])
                   (placeholderMaintained V2.placeholderText s)) = false)
        by apply (placeholderMaintained_marks V2.placeholderText s).
      split; [by apply V2_mutationCallback_marked|]. split; [|exact Hm].
      unfold intervalCount, with_timers. simpl.
      by rewrite List.filter_app, length_app.
    + exists s. rewrite (bind_Ok _ _ _ _ _ Hcb).
      split; [by apply V2_mutationCallback_marked|]. split; [lia|done].
Qed.

(** ** The injected panel *)

Lemma V1_addQuickActions_objects (s : State V1.Closure) (a : NodeId) :
  wf s →
  findFirst (hasId "quick-actions") s = None →
  findFirst (matchesAny V1.messagesSel) s = Some a →
  ∃ pre k post hF,
    V1.addQuickActions s =
      Ok tt (pageOver s hF (16 + next s)
               (pre ++ (k, a) :: shift (S k) (panelTree (next s)) ++ post))
    ∧ doc s = pre ++ (k, a) :: post
    ∧ (∀ m, m < next s → hF m = heap s m)
    ∧ (∀ i e, panelObjects (next s) !! i = Some e → hF (i + next s) = e).
Proof.
  destruct s as [h nx d act ld tm kd rd ob tr].
  intros Hwf Hp Ha. unfold findFirst, wf, pageOver in *.
  cbn [heap doc next] in *.
  destruct (firstMatch_split _ _ _ _ Ha) as (pre & k & post & Hs & Hd).
  exists pre, k, post.
  unfold V1.addQuickActions, V1.panelMarkup.
  exec. rewrite Hp. exec_loops.
  match goal with |- context [firstMatch _ ?H d] => set (HA := H) end.
  assert (Hag : ∀ m, m < nx → HA m = h m).
  { intros m Hm. unfold HA. by heap_lookup. }
  rewrite (firstMatch_agree _ h HA d (wf_agree nx _ _ _ _ Hwf Hag)).
  rewrite Ha, Hs. exec. cbn [list.tail].
  repeat first
    [ rewrite filter_cons_false by (cbn [snd]; unfold HA; heap_lookup; reflexivity)
    | rewrite filter_cons_true by (cbn [snd]; unfold HA; heap_lookup; reflexivity) ].
  cbn [List.filter fmap list_fmap snd]. exec_loops.
  eexists. split; [reflexivity|].
  split_and!.
  - done.
  - intros m Hm. unfold HA. by heap_lookup.
  - intros i e Hi.
    do 16 (destruct i as [|i];
           [injection Hi as <-; cbn [Nat.add]; unfold HA; heap_lookup;
            reflexivity|]).
    done.
Qed.

(** X6. Where the first revision puts its panel (lines 64-163).  On a page
    without panel whose messages container [a] resolves, [addQuickActions]
    returns normally; the document is the old one with the sixteen elements of
    the panel inserted right after [a], one level below it (as its first
    children); the panel's objects are exactly the container with the id and
    the markup's elements, each button carrying one click listener; every
    object that existed before, the timers, the trace, the listeners and the
    focus are untouched. *)
Theorem V1_panel_is_first_child (s : State V1.Closure) (a : NodeId) :
  wf s →
  findFirst (hasId "quick-actions") s = None →
  findFirst (matchesAny V1.messagesSel) s = Some a →
  ∃ s' pre k post,
    V1.addQuickActions s = Ok tt s'
    ∧ doc s = pre ++ (k, a) :: post
    ∧ doc s' = pre ++ (k, a) :: shift (S k) (panelTree (next s)) ++ post
    ∧ (∀ m, m < next s → heap s' m = heap s m)
    ∧ (∀ i e, panelObjects (next s) !! i = Some e → heap s' (i + next s) = e)
    ∧ next s' = 16 + next s
    ∧ timers s' = timers s
    ∧ trace s' = trace s
    ∧ keydownListeners s' = keydownListeners s
    ∧ observers s' = observers s
    ∧ activeElement s' = activeElement s.
Proof.
  intros Hwf Hp Ha.
  destruct (V1_addQuickActions_objects s a Hwf Hp Ha)
    as (pre & k & post & hF & Hrun & Hd & Hag & Hobj).
  eexists _, pre, k, post. split; [exact Hrun|]. by split_and!.
Qed.

Lemma V1_panel_is_first_child_witness :
  ∃ s' pre k post,
    V1.addQuickActions chatPage1 = Ok tt s'
    ∧ doc chatPage1 = pre ++ (k, 3) :: post
    ∧ doc s' = pre ++ (k, 3) :: shift (S k) (panelTree (next chatPage1)) ++ post
    ∧ (∀ m, m < next chatPage1 → heap s' m = heap chatPage1 m)
    ∧ (∀ i e, panelObjects (next chatPage1) !! i = Some e →
         heap s' (i + next chatPage1) = e)
    ∧ next s' = 16 + next chatPage1
    ∧ timers s' = timers chatPage1
    ∧ trace s' = trace chatPage1
    ∧ keydownListeners s' = keydownListeners chatPage1
    ∧ observers s' = observers chatPage1
    ∧ activeElement s' = activeElement chatPage1.
Proof.
  apply (V1_panel_is_first_child chatPage1 3).
  - unfold wf. simpl. repeat constructor.
  - reflexivity.
  - reflexivity.
Defined.

Lemma V2_addQuickActions_objects (s : State V2.Closure) :
  findFirst (hasId "quick-actions") s = None →
  ∃ hF,
    V2.addQuickActions s =
      Ok tt (with_timers (timers s ++ [insertTimer (panelTree2 (next s))])
               (pageOver s hF (5 + next s) (doc s)))
    ∧ (∀ m, m < next s → hF m = heap s m)
    ∧ (∀ i e, panelObjects2 !! i = Some e → hF (i + next s) = e).
Proof.
  destruct s as [h nx d act ld tm kd rd ob tr].
  intros Hp. unfold findFirst, pageOver, insertTimer, panelTree2 in *.
  cbn [heap doc next] in *.
  unfold V2.addQuickActions, V2.examples.
  exec. rewrite Hp.
  cbv beta iota zeta delta [V2.makeButtons V2.emoji V2.text V2.query]. exec.
  eexists. split; [reflexivity|].
  split.
  - intros m Hm. by heap_lookup.
  - intros i e Hi.
    do 5 (destruct i as [|i];
          [injection Hi as <-; cbn [Nat.add]; heap_lookup; reflexivity|]).
    done.
Qed.

Lemma countIn_panel2 (hF : NodeId → Element V2.Closure) (nx k : NodeId) :
  (∀ i e, panelObjects2 !! i = Some e → hF (i + nx) = e) →
  countIn (hasId "quick-actions") hF (shift k (panelTree2 nx)) = 1.
Proof.
  intros Hobj. unfold shift, panelTree2. cbn [fmap list_fmap fst snd].
  rewrite !countIn_cons. cbn [snd].
  pose proof (Hobj 0 _ eq_refl) as H0. pose proof (Hobj 1 _ eq_refl) as H1.
  pose proof (Hobj 2 _ eq_refl) as H2. pose proof (Hobj 3 _ eq_refl) as H3.
  pose proof (Hobj 4 _ eq_refl) as H4. cbn [Nat.add] in *.
  rewrite H0, H1, H2, H3, H4. reflexivity.
Qed.

Lemma V2_insertPanel_inserts (s : State V2.Closure)
    (panel : list (nat * NodeId)) (a k : NodeId)
    (pre post : list (nat * NodeId)) :
  findFirst (matchesAny V2.composerSel) s = Some a →
  splitAt a (doc s) = Some (pre, S k, post) →
  V2.insertPanel panel s =
  Ok tt (with_doc (pre ++ shift (S k) panel ++ (S k, a) :: post) s).
Proof.
  intros Ha Hs.
  unfold V2.insertPanel, querySelector, gets, bind at 1. rewrite Ha.
  cbn [nonNull when].
  unfold insertAdjacentElement, deref, bind, ret, gets. by rewrite Hs.
Qed.

(** X7. The second revision's injector is idempotent when its calls are
    separated by the timeout (lines 339-401).  On a page without panel whose
    composer [a] resolves below the root, [addQuickActions] queues one
    timeout; when that comes due the five elements of the panel stand right
    before [a], at [a]'s depth, the document holds exactly one element with
    the id and the timeout is gone; a further call then finds the panel and
    leaves the page exactly as it is. *)
Theorem V2_injector_idempotent_across_timeout (s : State V2.Closure)
    (a k : NodeId) (pre post : list (nat * NodeId)) :
  wf s →
  countWithId "quick-actions" s = 0 →
  findFirst (matchesAny V2.composerSel) s = Some a →
  splitAt a (doc s) = Some (pre, S k, post) →
  ∃ s1 s2,
    V2.addQuickActions s = Ok tt s1
    ∧ timers s1 = timers s ++ [insertTimer (panelTree2 (next s))]
    ∧ fireTimer V2.run (length (timers s)) s1 = s2
    ∧ doc s2 = pre ++ shift (S k) (panelTree2 (next s)) ++ (S k, a) :: post
    ∧ (∀ i e, panelObjects2 !! i = Some e → heap s2 (i + next s) = e)
    ∧ countWithId "quick-actions" s2 = 1
    ∧ timers s2 = timers s
    ∧ V2.addQuickActions s2 = Ok tt s2.
Proof.
  intros Hwf Hc Ha Hs.
  assert (Hp : findFirst (hasId "quick-actions") s = None)
    by by apply firstMatch_None_count.
  destruct (V2_addQuickActions_objects s Hp) as (hF & Hrun & Hag & Hobj).
  destruct (firstMatch_split _ _ _ _ Ha) as (pre' & k' & post' & Hs' & Hd).
  rewrite Hs in Hs'. injection Hs' as <- <- <-.
  set (sT := with_timers (timers s) (pageOver s hF (5 + next s) (doc s))).
  assert (HaT : findFirst (matchesAny V2.composerSel) sT = Some a).
  { unfold findFirst in *. cbn [sT heap doc with_timers pageOver with_heap
      with_next with_doc].
    by rewrite (firstMatch_agree _ (heap s) hF (doc s)
                  (wf_agree (next s) _ _ _ _ Hwf Hag)). }
  assert (Hfire : fireTimer V2.run (length (timers s))
            (with_timers (timers s ++ [insertTimer (panelTree2 (next s))])
               (pageOver s hF (5 + next s) (doc s))) =
          with_doc (pre ++ shift (S k) (panelTree2 (next s)) ++ (S k, a) :: post)
            sT).
  { unfold fireTimer. cbn [timers with_timers].
    rewrite (list_lookup_middle _ [] _ _ eq_refl).
    cbn [repeating insertTimer callback].
    rewrite delete_middle, app_nil_r. cbn [V2.run].
    change (with_timers (timers s) _) with sT.
    by rewrite (V2_insertPanel_inserts sT _ a k pre post HaT Hs). }
  eexists _, _. split; [exact Hrun|]. split; [done|].
  split; [exact Hfire|].
  split; [done|]. split; [exact Hobj|].
  assert (Hcount : countIn (hasId "quick-actions") hF
            (pre ++ shift (S k) (panelTree2 (next s)) ++ (S k, a) :: post) = 1).
  { unfold countWithId, wf in *. rewrite Hd in Hc, Hwf.
    rewrite countIn_app, countIn_cons in Hc. cbn [snd] in Hc.
    rewrite !countIn_app, countIn_cons. cbn [snd].
    apply Forall_app in Hwf as [Hpre Hpost].
    inversion Hpost as [|? ? Ha' Hpost']; subst. simpl in Ha'.
    rewrite (countIn_agree _ (heap s) hF pre (wf_agree _ _ _ _ _ Hpre Hag)).
    rewrite (countIn_agree _ (heap s) hF post (wf_agree _ _ _ _ _ Hpost' Hag)).
    rewrite (Hag a Ha'), (countIn_panel2 hF (next s) (S k) Hobj). lia. }
  split; [exact Hcount|]. split; [done|].
  match goal with |- V2.addQuickActions ?s2 = _ => set (sF := s2) end.
  destruct (findFirst (hasId "quick-actions") sF) as [q|] eqn:Hq.
  - unfold V2.addQuickActions, bind at 1, getElementById, gets. by rewrite Hq.
  - apply firstMatch_None_count in Hq.
    unfold sF, sT, with_doc, with_timers, pageOver, with_heap, with_next in Hq.
    cbn [heap doc] in Hq. lia.
Qed.

Lemma V2_injector_idempotent_across_timeout_witness :
  ∃ s1 s2,
    V2.addQuickActions (chatPage2 sendButton) = Ok tt s1
    ∧ timers s1 =
        timers (chatPage2 sendButton) ++
        [insertTimer (panelTree2 (next (chatPage2 sendButton)))]
    ∧ fireTimer V2.run (length (timers (chatPage2 sendButton))) s1 = s2
    ∧ doc s2 =
        [(0, 0); (1, 1); (1, 2)] ++
        shift 2 (panelTree2 (next (chatPage2 sendButton))) ++
        (2, 3) :: [(3, 4); (3, 5)]
    ∧ (∀ i e, panelObjects2 !! i = Some e →
         heap s2 (i + next (chatPage2 sendButton)) = e)
    ∧ countWithId "quick-actions" s2 = 1
    ∧ timers s2 = timers (chatPage2 sendButton)
    ∧ V2.addQuickActions s2 = Ok tt s2.
Proof.
  apply (V2_injector_idempotent_across_timeout (chatPage2 sendButton) 3 1
           [(0, 0); (1, 1); (1, 2)] [(3, 4); (3, 5)]).
  - unfold wf. simpl. repeat constructor.
  - reflexivity.
  - reflexivity.
  - reflexivity.
Defined.

(** ** Start-up of the second revision without a head *)

Lemma bind_Throw {C A B} (m : M C A) (k : A → M C B) (s s' : State C)
    (f : Fault) :
  m s = Throw f s' → bind m k s = Throw f s'.
Proof. intros H. unfold bind. by rewrite H. Qed.

(** [onReady] up to and including [setupKeyboardShortcuts]: it cannot fail,
    and it leaves the tree and the children of the root as they are. *)
Lemma V2_onReady_prefix (s : State V2.Closure) :
  wf s →
  ∃ se, wf se
    ∧ doc se = doc s
    ∧ firstChild isHead (heap se) (doc se) = firstChild isHead (heap s) (doc s)
    ∧ keydownListeners se = keydownListeners s ++ [V2.KeydownHandler]
    ∧ observers se = observers s
    ∧ ∀ k : M V2.Closure unit,
        (consoleLog "EM Spark UI initialized" >>
         V2.updatePlaceholder >> V2.focusInput >> V2.addQuickActions >>
         V2.setupKeyboardShortcuts >> k) s = k se.
Proof.
  intros Hwf.
  set (sa := with_trace (trace s ++ [ConsoleLog "EM Spark UI initialized"]) s).
  set (sb := with_timers (timers sa ++ [placeholderTimer2])
               (placeholderMaintained V2.placeholderText sa)).
  destruct (placeholderMaintained_frame V2.placeholderText sa)
    as (_ & Hdb & Hnb & Hkb & Hob & _).
  set (sc := with_timers
               (timers sb ++
                [{| delay := 500; repeating := false;
                    callback := V2.FocusTask |}]) sb).
  destruct (V2_addQuickActions_frame sc)
    as (sd & Hrun & Hdd & Hkd & Hod & Hnd & Hhd).
  exists (with_keydownListeners (keydownListeners sd ++ [V2.KeydownHandler]) sd).
  unfold with_keydownListeners. cbn [doc heap next keydownListeners observers].
  split_and!.
  - unfold wf. cbn [doc next]. rewrite Hdd. cbn [sc sb with_timers doc].
    rewrite Hdb. eapply Forall_impl; [|exact Hwf]. intros dn Hlt.
    simpl in Hlt. cbn [sc sb with_timers next] in Hnd. rewrite Hnb in Hnd.
    simpl in Hnd. lia.
  - rewrite Hdd. cbn [sc sb with_timers doc]. by rewrite Hdb.
  - rewrite Hdd. cbn [sc sb with_timers doc].
    etrans; [|exact (head_tag_maintained V2.placeholderText sa)].
    apply firstChild_agree.
    apply (wf_agree (next s)); [rewrite Hdb; exact Hwf|].
    intros m Hm. apply Hhd. cbn [sc sb with_timers next]. rewrite Hnb.
    exact Hm.
  - rewrite Hkd. cbn [sc sb with_timers keydownListeners]. by rewrite Hkb.
  - rewrite Hod. cbn [sc sb with_timers observers]. by rewrite Hob.
  - intros k.
    unfold consoleLog, emit, modify, bind at 1. fold sa.
    rewrite (bind_Ok _ _ _ _ _ (V2_updatePlaceholder_spec sa)). fold sb.
    unfold V2.focusInput, setTimeout, modify, bind at 1. fold sc.
    rewrite (bind_Ok _ _ _ _ _ Hrun).
    reflexivity.
Qed.

Lemma V2_addWelcomeAnimation_no_head (s : State V2.Closure) :
  wf s →
  firstChild isHead (heap s) (doc s) = None →
  V2.addWelcomeAnimation s =
  Throw TypeError
    (with_next (S (next s))
       (with_heap (<[next s := blank "style"]> (heap s)) s)).
Proof.
  destruct s as [h nx d act ld tm kd rd ob tr].
  intros Hwf Hhd. unfold wf in *. cbn [heap doc next] in *.
  unfold V2.addWelcomeAnimation. exec.
  rewrite (firstChild_agree _ h (<[nx := blank "style"]> h) d).
  2:{ apply (wf_agree nx); [exact Hwf|]. intros m Hm. by heap_lookup. }
  by rewrite Hhd.
Qed.

(** X10. The one way start-up can fail (second revision, lines 287-307 and
    427-446): [document.head.appendChild] is the only dereference without a
    guard.  On a well-formed page [onReady] returns normally exactly when the
    root element has a [head] child.  Without one it throws a TypeError in
    [addWelcomeAnimation]: by then the keydown listener is registered, the
    document tree is untouched, and no observer is ever created; run from
    the script body, the exception also skips the [setTimeout(onReady, 1000)]
    that would have tried again. *)
Theorem V2_onReady_needs_head (s : State V2.Closure) :
  wf s →
  ((∃ hd, firstChild isHead (heap s) (doc s) = Some hd)
   ↔ ∃ s', V2.onReady s = Ok tt s')
  ∧ (firstChild isHead (heap s) (doc s) = None →
     ∃ s', V2.onReady s = Throw TypeError s'
       ∧ keydownListeners s' = keydownListeners s ++ [V2.KeydownHandler]
       ∧ observers s' = observers s
       ∧ doc s' = doc s
       ∧ (loading s = false → V2.main s = Throw TypeError s')).
Proof.
  intros Hwf.
  assert (Hthrow : firstChild isHead (heap s) (doc s) = None →
     ∃ s', V2.onReady s = Throw TypeError s'
       ∧ keydownListeners s' = keydownListeners s ++ [V2.KeydownHandler]
       ∧ observers s' = observers s
       ∧ doc s' = doc s
       ∧ (loading s = false → V2.main s = Throw TypeError s')).
  { intros Hno.
    destruct (V2_onReady_prefix s Hwf) as (se & Hwfe & Hde & Hhe & Hke & Hoe & Hk).
    rewrite Hno in Hhe.
    pose proof (V2_addWelcomeAnimation_no_head se Hwfe Hhe) as Hanim.
    assert (Hrun : V2.onReady s = Throw TypeError
                     (with_next (S (next se))
                        (with_heap (<[next se := blank "style"]> (heap se)) se))).
    { unfold V2.onReady. rewrite Hk. by apply bind_Throw. }
    eexists. split; [exact Hrun|]. split_and!; try done.
    intros Hl. unfold V2.main, bind at 1, gets. rewrite Hl.
    apply bind_Throw. exact Hrun. }
  split; [|exact Hthrow]. split.
  - intros [hd Hhd].
    destruct (V2_onReady_registers s hd Hwf Hhd) as (s' & r & Hrun & _).
    by exists s'.
  - intros [s' Hrun].
    destruct (firstChild isHead (heap s) (doc s)) as [hd|] eqn:Hhd;
      [by exists hd|].
    destruct (Hthrow eq_refl) as (s'' & Hrun' & _). congruence.
Qed.

Lemma V2_onReady_needs_head_witness :
  ((∃ hd, firstChild isHead (heap headlessPage) (doc headlessPage) = Some hd)
   ↔ ∃ s', V2.onReady headlessPage = Ok tt s')
  ∧ (∃ s', V2.onReady headlessPage = Throw TypeError s'
       ∧ keydownListeners s' =
           keydownListeners headlessPage ++ [V2.KeydownHandler]
       ∧ observers s' = observers headlessPage
       ∧ doc s' = doc headlessPage
       ∧ (loading headlessPage = false →
          V2.main headlessPage = Throw TypeError s')).
Proof.
  assert (Hwf : wf headlessPage) by (unfold wf; simpl; repeat constructor).
  split.
  - apply (proj1 (V2_onReady_needs_head headlessPage Hwf)).
  - apply (proj2 (V2_onReady_needs_head headlessPage Hwf)). reflexivity.
Defined.

(** ** Start-up of the first revision *)

Section Children.
Context {Closure : Type}.
Implicit Types (p : Element Closure → bool) (h : NodeId → Element Closure).

Lemma inside_app (k : nat) (d : list (nat * NodeId)) :
  (inside k d).1 ++ (inside k d).2 = d.
Proof.
  induction d as [|[k' m] l IH]; [done|]. unfold inside; fold inside.
  destruct (Nat.ltb k k'); [|done].
  destruct (inside k l) as [i o]. simpl in *. by rewrite IH.
Qed.

(** Elements that are no match, put anywhere into the tree, do not change
    which child of the root is found first. *)
Lemma firstChild_insert p h h' (l1 ins l2 : list (nat * NodeId)) :
  Forall (λ dn, p (h' dn.2) = p (h dn.2)) (l1 ++ l2) →
  Forall (λ dn, p (h' dn.2) = false) ins →
  firstChild p h' (l1 ++ ins ++ l2) = firstChild p h (l1 ++ l2).
Proof.
  unfold firstChild. intros Hag Hins.
  induction l1 as [|[k m] l1 IH]; simpl in *.
  - induction Hins as [|[k m] ins Hx _ IH]; simpl in *.
    + revert Hag. induction l2 as [|[k m] l2 IH2]; intros Hag; [done|].
      inversion Hag as [|? ? Hx Hl]; subst. simpl in *. rewrite Hx.
      destruct (_ && _); [done|]. by apply IH2.
    + rewrite Hx, andb_false_r. exact IH.
  - inversion Hag as [|? ? Hx Hl]; subst. simpl in *. rewrite Hx.
    destruct (_ && _); [done|]. by apply IH.
Qed.

Lemma child_tag_maintained p (text : string) (s : State Closure) :
  (∀ e e', tagName e = tagName e' → p e = p e') →
  firstChild p (heap (placeholderMaintained text s))
    (doc (placeholderMaintained text s)) =
  firstChild p (heap s) (doc s).
Proof.
  intros Hp. destruct (placeholderMaintained_frame text s) as (_ & -> & _).
  apply firstChild_agree, Forall_forall. intros dn _. apply Hp.
  apply (placeholderMaintained_elemId text s dn.2).
Qed.

End Children.

Lemma isHead_tag {C} (e e' : Element C) :
  tagName e = tagName e' → isHead e = isHead e'.
Proof. unfold isHead. by intros ->. Qed.

Lemma isBody_tag {C} (e e' : Element C) :
  tagName e = tagName e' → isBody e = isBody e'.
Proof. unfold isBody. by intros ->. Qed.

Lemma panel_has_no_head_or_body (hF : NodeId → Element V1.Closure)
    (nx k : NodeId) :
  (∀ i e, panelObjects nx !! i = Some e → hF (i + nx) = e) →
  Forall (λ dn, isHead (hF dn.2) = false) (shift k (panelTree nx))
  ∧ Forall (λ dn, isBody (hF dn.2) = false) (shift k (panelTree nx)).
Proof.
  intros Hobj.
  assert (H : ∀ i, i < 16 →
            isHead (hF (i + nx)) = false ∧ isBody (hF (i + nx)) = false).
  { intros i Hi.
    do 16 (destruct i as [|i];
           [match goal with
            | |- context [hF (?j + nx)] => rewrite (Hobj j _ eq_refl)
            end; by split|]).
    lia. }
  unfold shift, panelTree. cbn [fmap list_fmap fst snd].
  split.
  all: repeat (apply List.Forall_cons; [cbn [snd]|]); try apply List.Forall_nil.
  all: first [apply (proj1 (H 0 ltac:(lia))) | apply (proj2 (H 0 ltac:(lia)))
             | apply H; lia].
Qed.

Lemma V1_addQuickActions_children (s : State V1.Closure) :
  wf s →
  ∃ sd, V1.addQuickActions s = Ok tt sd
    ∧ wf sd
    ∧ firstChild isHead (heap sd) (doc sd) = firstChild isHead (heap s) (doc s)
    ∧ firstChild isBody (heap sd) (doc sd) = firstChild isBody (heap s) (doc s)
    ∧ timers sd = timers s
    ∧ keydownListeners sd = keydownListeners s
    ∧ readyListeners sd = readyListeners s
    ∧ observers sd = observers s.
Proof.
  intros Hwf.
  destruct (findFirst (hasId "quick-actions") s) as [q|] eqn:Hq.
  { exists s. split; [by apply (V1_addQuickActions_present s q)|].
    by split_and!. }
  destruct (findFirst (matchesAny V1.messagesSel) s) as [a|] eqn:Ha.
  - destruct (V1_addQuickActions_objects s a Hwf Hq Ha)
      as (pre & k & post & hF & Hrun & Hd & Hag & Hobj).
    eexists. split; [exact Hrun|].
    unfold pageOver, with_heap, with_next, with_doc, wf in *.
    cbn [heap doc next timers keydownListeners readyListeners observers].
    destruct (panel_has_no_head_or_body hF (next s) (S k) Hobj) as [Hh Hb].
    assert (Hold : ∀ {B} (f : Element V1.Closure → B),
              Forall (λ dn, f (hF dn.2) = f (heap s dn.2))
                ((pre ++ [(k, a)]) ++ post)).
    { intros B f. rewrite <- app_assoc. simpl. rewrite <- Hd.
      by apply (wf_agree (next s)). }
    split_and!; try done.
    + rewrite Hd in Hwf. apply Forall_app in Hwf as [Hpre Hpost].
      inversion Hpost as [|? ? Ha' Hpost']; subst.
      apply Forall_app. split.
      { eapply Forall_impl; [|exact Hpre]. simpl. lia. }
      constructor; [simpl in *; lia|].
      apply Forall_app. split.
      { unfold shift, panelTree. cbn [fmap list_fmap fst snd].
        repeat (apply List.Forall_cons; [simpl; lia|]). apply List.Forall_nil. }
      eapply Forall_impl; [|exact Hpost']. simpl. lia.
    + rewrite Hd.
      change (pre ++ (k, a) :: shift (S k) (panelTree (next s)) ++ post)
        with (pre ++ [(k, a)] ++ shift (S k) (panelTree (next s)) ++ post).
      rewrite (app_assoc pre [(k, a)]).
      change (pre ++ (k, a) :: post) with (pre ++ [(k, a)] ++ post).
      rewrite (app_assoc pre [(k, a)] post).
      by apply firstChild_insert.
    + rewrite Hd.
      change (pre ++ (k, a) :: shift (S k) (panelTree (next s)) ++ post)
        with (pre ++ [(k, a)] ++ shift (S k) (panelTree (next s)) ++ post).
      rewrite (app_assoc pre [(k, a)]).
      change (pre ++ (k, a) :: post) with (pre ++ [(k, a)] ++ post).
      rewrite (app_assoc pre [(k, a)] post).
      by apply firstChild_insert.
  - destruct (V1_addQuickActions_no_anchor s Hwf Hq Ha) as (hF & Hrun & Hag).
    eexists. split; [exact Hrun|].
    unfold pageOver, with_heap, with_next, with_doc, wf in *.
    cbn [heap doc next timers keydownListeners readyListeners observers].
    split_and!; try done.
    + eapply Forall_impl; [|exact Hwf]. simpl. lia.
    + apply firstChild_agree. by apply (wf_agree (next s)).
    + apply firstChild_agree. by apply (wf_agree (next s)).
Qed.

Lemma V1_addWelcomeAnimation_appends (s : State V1.Closure) (hd : NodeId) :
  wf s →
  firstChild isHead (heap s) (doc s) = Some hd →
  ∃ sf, V1.addWelcomeAnimation s = Ok tt sf
    ∧ firstChild isBody (heap sf) (doc sf) = firstChild isBody (heap s) (doc s)
    ∧ timers sf = timers s
    ∧ keydownListeners sf = keydownListeners s
    ∧ readyListeners sf = readyListeners s
    ∧ observers sf = observers s.
Proof.
  destruct s as [h nx d act ld tm kd rd ob tr].
  intros Hwf Hhd. unfold wf in *. cbn [heap doc next] in *.
  unfold V1.addWelcomeAnimation. exec.
  assert (Hag : ∀ m, m < nx → (<[nx := blank "style"]> h) m = h m)
    by (intros m Hm; by heap_lookup).
  rewrite (firstChild_agree _ h (<[nx := blank "style"]> h) d
             (wf_agree nx _ _ _ _ Hwf Hag)).
  rewrite Hhd.
  destruct (firstChild_split _ _ _ _ Hhd) as (pre & k & post & Hs & Hd).
  rewrite Hs. eexists. split; [reflexivity|].
  cbn [heap doc timers keydownListeners readyListeners observers].
  split_and!; try done.
  assert (Hd' : d = (pre ++ (k, hd) :: (inside k post).1) ++ (inside k post).2).
  { rewrite <- app_assoc. simpl. by rewrite inside_app. }
  rewrite Hd' at 1.
  change (pre ++ (k, hd) :: (inside k post).1 ++
            shift (S k) [(0, nx)] ++ (inside k post).2)
    with (pre ++ ((k, hd) :: (inside k post).1) ++
            shift (S k) [(0, nx)] ++ (inside k post).2).
  rewrite (app_assoc pre).
  apply firstChild_insert.
  - rewrite <- Hd'. by apply (wf_agree nx).
  - repeat constructor. simpl. by rewrite fn_lookup_insert.
Qed.

(** [onReady] up to and including [setupKeyboardShortcuts]. *)
Lemma V1_onReady_prefix (s : State V1.Closure) :
  wf s →
  ∃ se, wf se
    ∧ firstChild isHead (heap se) (doc se) = firstChild isHead (heap s) (doc s)
    ∧ firstChild isBody (heap se) (doc se) = firstChild isBody (heap s) (doc s)
    ∧ timers se = timers s ++ [placeholderTimer; focusTimer]
    ∧ keydownListeners se = keydownListeners s ++ [V1.KeydownHandler]
    ∧ readyListeners se = readyListeners s
    ∧ observers se = observers s
    ∧ ∀ k : M V1.Closure unit,
        (consoleLog "EM Spark UI initialized" >>
         V1.updatePlaceholder >> V1.focusInput >> V1.addQuickActions >>
         V1.setupKeyboardShortcuts >> k) s = k se.
Proof.
  intros Hwf.
  set (sa := with_trace (trace s ++ [ConsoleLog "EM Spark UI initialized"]) s).
  set (sb := with_timers (timers sa ++ [placeholderTimer])
               (placeholderMaintained V1.placeholderText sa)).
  destruct (placeholderMaintained_frame V1.placeholderText sa)
    as (_ & Hdb & Hnb & Hkb & Hob & _).
  set (sc := with_timers (timers sb ++ [focusTimer]) sb).
  assert (Hwfc : wf sc).
  { unfold wf. cbn [sc sb with_timers doc next]. rewrite Hdb, Hnb. exact Hwf. }
  destruct (V1_addQuickActions_children sc Hwfc)
    as (sd & Hrun & Hwfd & Hhd & Hbd & Htd & Hkd & Hrd & Hod).
  exists (with_keydownListeners (keydownListeners sd ++ [V1.KeydownHandler]) sd).
  unfold with_keydownListeners.
  cbn [doc heap next timers keydownListeners readyListeners observers].
  split_and!.
  - exact Hwfd.
  - rewrite Hhd. cbn [sc sb with_timers heap doc].
    exact (child_tag_maintained isHead V1.placeholderText sa isHead_tag).
  - rewrite Hbd. cbn [sc sb with_timers heap doc].
    exact (child_tag_maintained isBody V1.placeholderText sa isBody_tag).
  - rewrite Htd. cbn [sc sb sa with_timers with_trace timers].
    by rewrite <- app_assoc.
  - rewrite Hkd. cbn [sc sb with_timers keydownListeners]. by rewrite Hkb.
  - rewrite Hrd. cbn [sc sb with_timers readyListeners].
    unfold placeholderMaintained, placeholderApplied.
    destruct (findFirst _ sa); [destruct (truthy _)|]; done.
  - rewrite Hod. cbn [sc sb with_timers observers]. by rewrite Hob.
  - intros k.
    unfold consoleLog, emit, modify, bind at 1. fold sa.
    rewrite (bind_Ok _ _ _ _ _ (V1_updatePlaceholder_spec sa)). fold sb.
    unfold V1.focusInput, setTimeout, modify, bind at 1.
    change (with_timers _ sb) with sc.
    rewrite (bind_Ok _ _ _ _ _ Hrun).
    reflexivity.
Qed.

(** X11. The first revision starts exactly once (lines 8-28 and 272-276).
    On a well-formed page whose root has a [head] and a [body], [onReady]
    returns normally having registered one keydown listener and one observer
    on the body, and having queued the placeholder interval and the focus
    timeout and nothing else: no second run is arranged.  The script body
    runs [onReady] at once on a loaded document and, on a loading one, only
    registers it for DOMContentLoaded. *)
Theorem V1_starts_exactly_once (s : State V1.Closure) (hd b : NodeId) :
  wf s →
  firstChild isHead (heap s) (doc s) = Some hd →
  firstChild isBody (heap s) (doc s) = Some b →
  (∃ s', V1.onReady s = Ok tt s'
     ∧ keydownListeners s' = keydownListeners s ++ [V1.KeydownHandler]
     ∧ observers s' = observers s ++ [bodyObserver b]
     ∧ timers s' = timers s ++ [placeholderTimer; focusTimer]
     ∧ readyListeners s' = readyListeners s
     ∧ (loading s = false → V1.main s = Ok tt s'))
  ∧ (loading s = true →
     V1.main s =
     Ok tt (with_readyListeners (readyListeners s ++ [V1.OnReady]) s)).
Proof.
  intros Hwf Hhd Hb. split.
  - destruct (V1_onReady_prefix s Hwf)
      as (se & Hwfe & Hhe & Hbe & Hte & Hke & Hre & Hoe & Hk).
    rewrite Hhd in Hhe. rewrite Hb in Hbe.
    destruct (V1_addWelcomeAnimation_appends se hd Hwfe Hhe)
      as (sf & Hrunf & Hbf & Htf & Hkf & Hrf & Hof).
    rewrite Hbe in Hbf.
    assert (Hrun : V1.onReady s =
              Ok tt (with_observers (observers sf ++ [bodyObserver b]) sf)).
    { unfold V1.onReady. rewrite Hk.
      rewrite (bind_Ok _ _ _ _ _ Hrunf).
      unfold V1.observeChanges, documentBody, gets, bind at 1.
      rewrite Hbf. reflexivity. }
    eexists. split; [exact Hrun|].
    unfold with_observers.
    cbn [timers keydownListeners readyListeners observers].
    split_and!.
    + by rewrite Hkf, Hke.
    + by rewrite Hof, Hoe.
    + by rewrite Htf, Hte.
    + by rewrite Hrf, Hre.
    + intros Hl. unfold V1.main, bind at 1, gets. rewrite Hl. exact Hrun.
  - intros Hl. unfold V1.main, bind at 1, gets. by rewrite Hl.
Qed.

Lemma V1_starts_exactly_once_witness :
  (∃ s', V1.onReady chatPage1 = Ok tt s'
     ∧ keydownListeners s' = keydownListeners chatPage1 ++ [V1.KeydownHandler]
     ∧ observers s' = observers chatPage1 ++ [bodyObserver 2]
     ∧ timers s' = timers chatPage1 ++ [placeholderTimer; focusTimer]
     ∧ readyListeners s' = readyListeners chatPage1
     ∧ (loading chatPage1 = false → V1.main chatPage1 = Ok tt s'))
  ∧ (loading chatPage1 = true →
     V1.main chatPage1 =
     Ok tt (with_readyListeners (readyListeners chatPage1 ++ [V1.OnReady])
              chatPage1)).
Proof.
  apply (V1_starts_exactly_once chatPage1 1 2).
  - unfold wf. simpl. repeat constructor.
  - reflexivity.
  - reflexivity.
Defined.

(** ** Repeated injection and deferred focus (first revision) *)

(** X12. The first revision's injector is idempotent for any number of
    calls (lines 64-66 and 151-162): on a page without panel whose messages
    container resolves, the first call leaves exactly one element with the
    id, and any number of further calls return with the page exactly as the
    first call left it. *)
Theorem V1_injector_idempotent_n (n : nat) (s : State V1.Closure)
    (a : NodeId) :
  wf s →
  countWithId "quick-actions" s = 0 →
  findFirst (matchesAny V1.messagesSel) s = Some a →
  ∃ s', V1.addQuickActions s = Ok tt s'
    ∧ countWithId "quick-actions" s' = 1
    ∧ times n V1.addQuickActions s' = Ok tt s'.
Proof.
  intros Hwf Hc Ha.
  destruct (V1_addQuickActions_count s a Hwf Hc Ha) as (s1 & Hrun & Hc1 & _).
  exists s1. split; [exact Hrun|]. split; [exact Hc1|].
  assert (Hq : ∃ q, findFirst (hasId "quick-actions") s1 = Some q).
  { destruct (findFirst (hasId "quick-actions") s1) as [q|] eqn:Hq;
      [by exists q|].
    apply firstMatch_None_count in Hq. unfold countWithId in Hc1. lia. }
  destruct Hq as [q Hq].
  induction n as [|n IH]; [done|]. simpl.
  by rewrite (bind_Ok _ _ _ _ _ (V1_addQuickActions_present s1 q Hq)).
Qed.

Lemma V1_injector_idempotent_n_witness :
  ∃ s', V1.addQuickActions chatPage1 = Ok tt s'
    ∧ countWithId "quick-actions" s' = 1
    ∧ times 3 V1.addQuickActions s' = Ok tt s'.
Proof.
  apply (V1_injector_idempotent_n 3 chatPage1 3).
  - unfold wf. simpl. repeat constructor.
  - reflexivity.
  - reflexivity.
Defined.

(** X13. The focus manager resolves its target when the timeout runs, not
    when it is queued (lines 51-58): [focusInput] only queues a 500 ms
    timeout and captures nothing; when the timeout comes due, on whatever
    page there is then, [focus()] is called on the first [textarea] of that
    page, which becomes the active element unless it is disabled or hidden
    (then the focus stays where it is); no object and no part of the tree
    changes, and the timeout is gone. *)
Theorem focus_resolves_when_due :
  (∀ s : State V1.Closure,
      V1.focusInput s = Ok tt (with_timers (timers s ++ [focusTimer]) s))
  ∧ (∀ (s2 : State V1.Closure) (i t : NodeId),
      timers s2 !! i = Some focusTimer →
      findFirst (matchesAny V1.textareaSel) s2 = Some t →
      fireTimer V1.run i s2 =
      (if focusable (heap s2 t) then with_activeElement (Some t) else id)
        (with_trace (trace s2 ++ [Focus t])
           (with_timers (delete i (timers s2)) s2)))
  ∧ (∀ (s2 : State V1.Closure) (i : NodeId),
      timers s2 !! i = Some focusTimer →
      findFirst (matchesAny V1.textareaSel) s2 = None →
      fireTimer V1.run i s2 = with_timers (delete i (timers s2)) s2).
Proof.
  split; [done|]. split.
  - intros s2 i t Hi Ht.
    unfold fireTimer. rewrite Hi. cbn [repeating focusTimer callback V1.run].
    unfold V1.focusTask, querySelector, gets, bind at 1.
    unfold findFirst in *. cbn [with_timers heap doc]. rewrite Ht.
    cbn [nonNull when]. unfold focus, deref, emit, modify, ret, bind.
    rewrite giveFocus_attached
      by (cbn [with_trace doc]; exact (firstMatch_attached _ _ _ _ Ht)).
    cbn [with_trace with_timers heap trace settle].
    by destruct (focusable (heap s2 t)).
  - intros s2 i Hi Ht.
    unfold fireTimer. rewrite Hi. cbn [repeating focusTimer callback V1.run].
    unfold V1.focusTask, querySelector, gets, bind at 1.
    unfold findFirst in *. cbn [with_timers heap doc]. by rewrite Ht.
Qed.

Lemma focus_resolves_when_due_witness :
  fireTimer V1.run 1 started1 =
  (if focusable (heap started1 4) then with_activeElement (Some 4) else id)
    (with_trace (trace started1 ++ [Focus 4])
       (with_timers (delete 1 (timers started1)) started1)).
Proof.
  apply (proj1 (proj2 focus_resolves_when_due) started1 1 4); reflexivity.
Defined.
